(** * The PKI bootstrapper of [cli/internal/utils/pki.go]

    A shallow embedding of the Go file: the random secret generator
    ([RandomString]), the certificate template builder ([newCertificate]),
    CA and leaf creation ([generateCA], [generateCert],
    [generateFromTemplate], [savePrivateKey]) and the top-level
    orchestration ([GeneratePKI]).

    Go values are modelled as they are in the code: [int], [time.Time]
    (nanoseconds) and [time.Duration] as [Z], bytes as [Z] in [0, 256),
    [x509.KeyUsage] as a bit set in [Z], Go's [error] as an optional
    message, the file system as a finite map from paths to files.
    Everything the code reaches outside itself (clock, random source, key
    generation, files, the external command) is a component of an explicit
    [World] that the operations thread through. *)

From Stdlib Require Import ZArith List String Ascii Lia Bool.
From stdpp Require Import base gmap strings list fin_maps.

Import ListNotations.
Local Open Scope string_scope.
Local Open Scope list_scope.
Local Open Scope Z_scope.

(** ** Go values *)

(** A Go [error] value, by its message. A function of result type [error]
    returns [option error], [None] being [nil]. *)
Definition error : Type := string.

(** The result of a Go function of type [(T, error)]. *)
Inductive res (A : Type) : Type :=
| OkR (a : A)
| ErrR (e : error).
Arguments OkR {A} a.
Arguments ErrR {A} e.

(** [net.IP]: a byte slice. *)
Definition IP : Type := list Z.

(** [pkix.Name], with the two fields the code sets. *)
Record Name : Type := mkName {
  Organization : list string;
  CommonName : string
}.

(** [x509.Certificate], with the fields the code sets or reads; a field the
    code leaves out of a composite literal has Go's zero value. *)
Record Certificate : Type := mkCertificate {
  Raw : list Z;
  SerialNumber : Z;
  Subject : Name;
  NotBefore : Z;
  NotAfter : Z;
  KeyUsage : Z;
  BasicConstraintsValid : bool;
  IsCA : bool;
  DNSNames : list string;
  IPAddresses : list IP
}.

(** [*rsa.PrivateKey]; the key is known here by its size and by its two
    encodings. *)
Record PrivateKey : Type := mkPrivateKey {
  keyBits : Z;
  pkcs1 : list Z;
  publicPart : list Z
}.

Definition PublicKey : Type := list Z.

(** [key.Public()] *)
Definition Public (key : PrivateKey) : PublicKey := publicPart key.

(** [x509.MarshalPKCS1PrivateKey] *)
Definition x509_MarshalPKCS1PrivateKey (key : PrivateKey) : list Z := pkcs1 key.

(** [pem.Block] without headers (the code sets none). *)
Record Block : Type := mkBlock {
  Type_ : string;
  Bytes : list Z
}.

(** The constants of [crypto/x509] ([1 << iota]). *)
Definition KeyUsageDigitalSignature : Z := Z.shiftl 1 0.
Definition KeyUsageContentCommitment : Z := Z.shiftl 1 1.
Definition KeyUsageKeyEncipherment : Z := Z.shiftl 1 2.
Definition KeyUsageDataEncipherment : Z := Z.shiftl 1 3.
Definition KeyUsageKeyAgreement : Z := Z.shiftl 1 4.
Definition KeyUsageCertSign : Z := Z.shiftl 1 5.

(** The constants of [time]. *)
Definition Nanosecond : Z := 1.
Definition Second : Z := 1000000000 * Nanosecond.
Definition Hour : Z := 3600 * Second.

(** The flags of [os.OpenFile] (their Linux values). *)
Definition O_WRONLY : Z := 1.
Definition O_RDWR : Z := 2.
Definition O_CREATE : Z := 64.
Definition O_TRUNC : Z := 512.

(** ** Text and bytes *)

Definition byte_of_ascii (c : ascii) : Z := Z.of_N (N_of_ascii c).
Definition ascii_of_byte (b : Z) : ascii := ascii_of_N (Z.to_N b).

(** [[]byte(s)] *)
Fixpoint bytes_of_string (s : string) : list Z :=
  match s with
  | EmptyString => []
  | String c s' => byte_of_ascii c :: bytes_of_string s'
  end.

(** [string(bytes)] *)
Fixpoint string_of_bytes (bs : list Z) : string :=
  match bs with
  | [] => EmptyString
  | b :: bs' => String (ascii_of_byte b) (string_of_bytes bs')
  end.

(** [len(s)] *)
Definition len (s : string) : Z := Z.of_nat (String.length s).

(** [s[i]]: the byte at index [i], or nothing where Go panics. *)
Definition index (s : string) (i : Z) : option Z :=
  if (i <? 0) then None
  else byte_of_ascii <$> String.get (Z.to_nat i) s.

(** [byte(n)] *)
Definition to_byte (n : Z) : Z := n mod 256.

(** ** [encoding/pem] and [encoding/base64] *)

Definition encodeStd : string :=
  "ABCDEFGHIJKLMNOPQRSTUVWXYZabcdefghijklmnopqrstuvwxyz0123456789+/".

Definition sextet (n : Z) : Z :=
  match index encodeStd n with
  | Some c => c
  | None => 0
  end.

Definition padChar : Z := 61.
Definition newline : Z := 10.

(** [base64.StdEncoding.Encode] *)
Fixpoint base64 (src : list Z) : list Z :=
  match src with
  | [] => []
  | [a] =>
      [sextet (Z.shiftr a 2); sextet (Z.shiftl (Z.land a 3) 4); padChar; padChar]
  | [a; b] =>
      [sextet (Z.shiftr a 2);
       sextet (Z.lor (Z.shiftl (Z.land a 3) 4) (Z.shiftr b 4));
       sextet (Z.shiftl (Z.land b 15) 2); padChar]
  | a :: b :: c :: rest =>
      sextet (Z.shiftr a 2)
      :: sextet (Z.lor (Z.shiftl (Z.land a 3) 4) (Z.shiftr b 4))
      :: sextet (Z.lor (Z.shiftl (Z.land b 15) 2) (Z.shiftr c 6))
      :: sextet (Z.land c 63)
      :: base64 rest
  end.

Definition pemLineLength : nat := 64.

(** The line breaker of [encoding/pem]: a line feed after every 64th
    character and after a last, shorter line. *)
Fixpoint lineBreaker (used : nat) (cs : list Z) : list Z :=
  match cs with
  | [] => match used with O => [] | S _ => [newline] end
  | c :: rest =>
      if Nat.eqb (S used) pemLineLength
      then c :: newline :: lineBreaker 0 rest
      else c :: lineBreaker (S used) rest
  end.

(** [pem.EncodeToMemory] *)
Definition pem_EncodeToMemory (b : Block) : list Z :=
  bytes_of_string ("-----BEGIN " +:+ Type_ b +:+ "-----")
  ++ [newline]
  ++ lineBreaker 0 (base64 (Bytes b))
  ++ bytes_of_string ("-----END " +:+ Type_ b +:+ "-----")
  ++ [newline].

(** ** The world around the program *)

(** A regular file: permission bits (as given at creation, before the
    umask) and content. *)
Record File : Type := mkFile {
  mode : Z;
  content : list Z
}.

(** What the program asks of its environment, in the order it asks. *)
Inductive Event : Type :=
| EvMkdir (path : string) (perm : Z)
| EvOpen (path : string) (flag perm : Z)
| EvWrite (path : string) (bytes : list Z)
| EvClose (path : string)
| EvSign (template parent : Certificate) (pub : PublicKey) (priv : PrivateKey)
| EvExec (env : list string) (command : string) (args : list string)
| EvPrintln (line : string).

Record World : Type := mkWorld {
  (** regular files, by path *)
  files : gmap string File;
  (** directories, by path, with their permission bits *)
  dirs : gmap string Z;
  (** the successive readings of the wall clock, and how many were taken *)
  clock : nat -> Z;
  ticks : nat;
  (** the bytes the secure random source still delivers *)
  entropy : list Byte.byte;
  (** the results of the key generations to come *)
  keygen : list (res PrivateKey);
  (** paths that cannot be opened, paths that cannot be written to *)
  openErr : string -> option error;
  writeErr : string -> option error;
  (** commands that fail *)
  execErr : string -> list string -> option error;
  (** the requests made so far, oldest first *)
  trace : list Event
}.

Definition set_files (f : gmap string File) (w : World) : World :=
  mkWorld f (dirs w) (clock w) (ticks w) (entropy w) (keygen w)
          (openErr w) (writeErr w) (execErr w) (trace w).
Definition set_dirs (d : gmap string Z) (w : World) : World :=
  mkWorld (files w) d (clock w) (ticks w) (entropy w) (keygen w)
          (openErr w) (writeErr w) (execErr w) (trace w).
Definition set_ticks (n : nat) (w : World) : World :=
  mkWorld (files w) (dirs w) (clock w) n (entropy w) (keygen w)
          (openErr w) (writeErr w) (execErr w) (trace w).
Definition set_entropy (e : list Byte.byte) (w : World) : World :=
  mkWorld (files w) (dirs w) (clock w) (ticks w) e (keygen w)
          (openErr w) (writeErr w) (execErr w) (trace w).
Definition set_keygen (k : list (res PrivateKey)) (w : World) : World :=
  mkWorld (files w) (dirs w) (clock w) (ticks w) (entropy w) k
          (openErr w) (writeErr w) (execErr w) (trace w).
Definition set_trace (t : list Event) (w : World) : World :=
  mkWorld (files w) (dirs w) (clock w) (ticks w) (entropy w) (keygen w)
          (openErr w) (writeErr w) (execErr w) t.

(** ** The monad of the program: state, fatal exit, panic *)

Inductive outcome (A : Type) : Type :=
| Ret (a : A)            (** the call returns *)
| Fatal (msg : string)   (** [logrus.Fatal]: the process exits *)
| Panic (msg : string).  (** a run-time panic *)
Arguments Ret {A} a.
Arguments Fatal {A} msg.
Arguments Panic {A} msg.

Definition M (A : Type) : Type := World -> outcome A * World.

Definition ret {A : Type} (a : A) : M A := fun w => (Ret a, w).

Definition bind {A B : Type} (m : M A) (k : A -> M B) : M B :=
  fun w =>
    match m w with
    | (Ret a, w') => k a w'
    | (Fatal msg, w') => (Fatal msg, w')
    | (Panic msg, w') => (Panic msg, w')
    end.

Declare Scope go_scope.
Delimit Scope go_scope with go.
Notation "x <- c ;; k" := (bind c (fun x => k))
  (at level 100, c at next level, right associativity) : go_scope.
Notation "c ;; k" := (bind c (fun _ => k))
  (at level 100, right associativity) : go_scope.
Local Open Scope go_scope.

Definition get : M World := fun w => (Ret w, w).
Definition modify (f : World -> World) : M unit := fun w => (Ret tt, f w).
Definition emit (e : Event) : M unit :=
  modify (fun w => set_trace (trace w ++ [e]) w).

(** [logrus.Fatal], [logrus.Fatalf] *)
Definition logrus_Fatal {A : Type} (msg : string) : M A := fun w => (Fatal msg, w).
Definition panic {A : Type} (msg : string) : M A := fun w => (Panic msg, w).

(** ** The standard library, as the program uses it *)

(** [time.Now] *)
Definition time_Now : M Z :=
  w <- get ;;
  modify (set_ticks (S (ticks w))) ;;
  ret (clock w (ticks w)).

(** [t.Add(d)] *)
Definition time_Add (t d : Z) : Z := t + d.

(** [t.Sub(u)] *)
Definition time_Sub (t u : Z) : Z := t - u.

Definition Z_of_byte (b : Byte.byte) : Z := Z.of_N (Byte.to_N b).

(** [rand.Read] on a slice of [n] bytes ([io.ReadFull] on the secure
    source): the slice filled, or an error when the source gives out. *)
Definition rand_Read (n : nat) : M (res (list Z)) :=
  w <- get ;;
  if (n <=? length (entropy w))%nat
  then modify (set_entropy (drop n (entropy w))) ;;
       ret (OkR (Z_of_byte <$> take n (entropy w)))
  else modify (set_entropy []) ;;
       ret (ErrR "unexpected EOF").

(** [n.BitLen()] for [0 <= n] *)
Definition BitLen (n : Z) : Z := if n =? 0 then 0 else Z.log2 n + 1.

(** [n.SetBytes(bytes)]: big-endian *)
Definition SetBytes (bytes : list Z) : Z :=
  fold_left (fun acc b => acc * 256 + b) bytes 0.

(** The sampling loop of [rand.Int]; a round uses up [k] bytes of the
    source, so that [fuel] larger than what the source holds is never
    exhausted. *)
Fixpoint rand_Int_loop (fuel : nat) (k : nat) (b max : Z) : M (res Z) :=
  match fuel with
  | O => ret (ErrR "unexpected EOF")
  | S fuel' =>
      r <- rand_Read k ;;
      match r with
      | ErrR err => ret (ErrR err)
      | OkR bytes =>
          let bytes :=
            match bytes with
            | [] => []
            | b0 :: rest => Z.land b0 (to_byte (Z.shiftl 1 b - 1)) :: rest
            end in
          let n := SetBytes bytes in
          if n <? max then ret (OkR n) else rand_Int_loop fuel' k b max
      end
  end.

(** [rand.Int(rand.Reader, max)] *)
Definition rand_Int (max : Z) : M (res Z) :=
  if max <=? 0 then panic "crypto/rand: argument to Int is <= 0"
  else
    let bitLen := BitLen (max - 1) in
    if bitLen =? 0 then ret (OkR 0)
    else
      let k := (bitLen + 7) / 8 in
      let b := bitLen mod 8 in
      let b := if b =? 0 then 8 else b in
      w <- get ;;
      rand_Int_loop (S (length (entropy w))) (Z.to_nat k) b max.

(** [rsa.GenerateKey(rand.Reader, bits)]: the keys come from a script of
    their own. What the prime search reads of [rand.Reader] is not
    modelled, so the properties below say how many bytes a serial number
    takes and in which order the readings happen, and never which bytes of
    the source a reading after a key generation receives. *)
Definition rsa_GenerateKey (bits : Z) : M (res PrivateKey) :=
  w <- get ;;
  match keygen w with
  | [] => ret (ErrR "unexpected EOF")
  | r :: rest => modify (set_keygen rest) ;; ret r
  end.

Definition has_flag (flag bit : Z) : bool := negb (Z.land flag bit =? 0).

(** [os.OpenFile(name, flag, perm)]; the open file is known by its path.
    [perm] is used only when the call creates the file: a file that exists
    keeps its permission bits. *)
Definition os_OpenFile (name : string) (flag perm : Z) : M (res string) :=
  emit (EvOpen name flag perm) ;;
  w <- get ;;
  match openErr w name with
  | Some err => ret (ErrR err)
  | None =>
      match files w !! name with
      | Some f =>
          (if has_flag flag O_TRUNC
           then modify (set_files (<[name := mkFile (mode f) []]> (files w)))
           else ret tt) ;;
          ret (OkR name)
      | None =>
          if has_flag flag O_CREATE
          then modify (set_files (<[name := mkFile perm []]> (files w))) ;;
               ret (OkR name)
          else ret (ErrR "no such file or directory")
      end
  end.

Definition perm3 (u g o : Z) : Z := u * 64 + g * 8 + o.

(** [os.Create(name)] *)
Definition os_Create (name : string) : M (res string) :=
  os_OpenFile name (Z.lor O_RDWR (Z.lor O_CREATE O_TRUNC)) (perm3 6 6 6).

(** [f.Write(b)]: all of [b] is appended, or the write fails. *)
Definition File_Write (f : string) (b : list Z) : M (option error) :=
  emit (EvWrite f b) ;;
  w <- get ;;
  match writeErr w f with
  | Some err => ret (Some err)
  | None =>
      match files w !! f with
      | Some file =>
          modify (set_files (<[f := mkFile (mode file) (content file ++ b)]> (files w))) ;;
          ret None
      | None => ret None
      end
  end.

(** [f.Close()] *)
Definition File_Close (f : string) : M (option error) :=
  emit (EvClose f) ;;
  ret None.

(** [pem.Encode(out, b)]: the header, the lines of base64 and the footer,
    which Go hands to [out] in several calls of [Write], are handed over
    in one. A write that succeeds appends the whole block, as in Go. A
    write that fails returns its error and appends nothing, which is what
    a disk that takes no byte does; a disk that takes a part of the block
    before it fails is not modelled, and the general properties below say
    nothing of the content of a file after a failed write. *)
Definition pem_Encode (out : string) (b : Block) : M (option error) :=
  File_Write out (pem_EncodeToMemory b).

(** [fmt.Println] *)
Definition fmt_Println (line : string) : M unit :=
  emit (EvPrintln line).

(** [strings.Join] *)
Fixpoint strings_Join (elems : list string) (sep : string) : string :=
  match elems with
  | [] => EmptyString
  | [e] => e
  | e :: rest => e +:+ sep +:+ strings_Join rest sep
  end.

(** ** What the program takes from elsewhere *)

(** The pure functions of the Go library that the program calls, and the
    directory resolution of the surrounding tool. *)
Record Library : Type := mkLibrary {
  (** [net.ParseIP]: nothing where Go returns [nil] *)
  net_ParseIP : string -> option IP;
  (** [filepath.Clean] *)
  filepath_Clean : string -> string;
  (** the signature and encoding of [x509.CreateCertificate] *)
  x509_encode :
    Certificate -> Certificate -> PublicKey -> PrivateKey -> res (list Z);
  (** [x509.ParseCertificate] *)
  x509_ParseCertificate : list Z -> res Certificate;
  (** Modelled from the spec: [AssetPath] of package [utils] is not among
      the sources; the spec describes it as a directory-resolution service
      that supplies an absolute path for storing certificate artifacts. *)
  AssetPath : string -> string
}.

(** Modelled from the spec: [CreateDirectory] of package [utils] is not
    among the sources. The spec has the orchestration ensure that the
    directory exists with owner-only permissions: the directory is made
    with the given mode unless it is there already. *)
Definition CreateDirectory (path : string) (perm : Z) : M unit :=
  emit (EvMkdir path perm) ;;
  w <- get ;;
  match dirs w !! path with
  | Some _ => ret tt
  | None => modify (set_dirs (<[path := perm]> (dirs w)))
  end.

(** Modelled from the spec: [ExecCommand] of package [utils] is not among
    the sources. The spec has it invoke the external client, its output
    not parsed, a failure propagated upward as a fatal error. *)
Definition ExecCommand (env : list string) (commandName : string)
    (args : list string) : M unit :=
  emit (EvExec env commandName args) ;;
  w <- get ;;
  match execErr w commandName args with
  | Some err => logrus_Fatal err
  | None => ret tt
  end.

(** ** The program *)

Definition rsaBits : Z := 2048.
Definition org : string := "Zarf Utility Cluster".

Definition validFor : Z := Hour * 24 * 375.

Definition randomStringChars : string :=
  "0123456789abcdefghijklmnopqrstuvwxyzABCDEFGHIJKLMNOPQRSTUVWXYZ!~-".

(** [make([]byte, length)] *)
Definition make_bytes (length : Z) : M (list Z) :=
  if length <? 0 then panic "makeslice: len out of range"
  else ret (repeat 0 (Z.to_nat length)).

(** The loop [for i, b := range bytes { bytes[i] = ... }] of
    [RandomString]. *)
Fixpoint RandomString_loop (bytes : list Z) : M (list Z) :=
  match bytes with
  | [] => ret []
  | b :: rest =>
      match index randomStringChars (b mod to_byte (len randomStringChars)) with
      | None => panic "index out of range"
      | Some c => rest' <- RandomString_loop rest ;; ret (c :: rest')
      end
  end.

Definition RandomString (length : Z) : M string :=
  bytes <- make_bytes length ;;
  r <- rand_Read (List.length bytes) ;;
  bytes <- match r with
           | ErrR _ => logrus_Fatal "unable to generate a random secret"
           | OkR filled => ret filled
           end ;;
  bytes <- RandomString_loop bytes ;;
  ret (string_of_bytes bytes).

Definition set_CommonName (cn : string) (c : Certificate) : Certificate :=
  mkCertificate (Raw c) (SerialNumber c)
    (mkName (Organization (Subject c)) cn)
    (NotBefore c) (NotAfter c) (KeyUsage c) (BasicConstraintsValid c)
    (IsCA c) (DNSNames c) (IPAddresses c).
Definition set_KeyUsage (ku : Z) (c : Certificate) : Certificate :=
  mkCertificate (Raw c) (SerialNumber c) (Subject c)
    (NotBefore c) (NotAfter c) ku (BasicConstraintsValid c)
    (IsCA c) (DNSNames c) (IPAddresses c).
Definition set_IsCA (b : bool) (c : Certificate) : Certificate :=
  mkCertificate (Raw c) (SerialNumber c) (Subject c)
    (NotBefore c) (NotAfter c) (KeyUsage c) (BasicConstraintsValid c)
    b (DNSNames c) (IPAddresses c).
Definition set_DNSNames (l : list string) (c : Certificate) : Certificate :=
  mkCertificate (Raw c) (SerialNumber c) (Subject c)
    (NotBefore c) (NotAfter c) (KeyUsage c) (BasicConstraintsValid c)
    (IsCA c) l (IPAddresses c).
Definition set_IPAddresses (l : list IP) (c : Certificate) : Certificate :=
  mkCertificate (Raw c) (SerialNumber c) (Subject c)
    (NotBefore c) (NotAfter c) (KeyUsage c) (BasicConstraintsValid c)
    (IsCA c) (DNSNames c) l.

(** newCertificate creates a new template *)
Definition newCertificate (validFor : Z) : M Certificate :=
  notBefore <- time_Now ;;
  let notAfter := time_Add notBefore validFor in
  let serialNumberLimit := Z.shiftl 1 128 in
  r <- rand_Int serialNumberLimit ;;
  serialNumber <- match r with
                  | ErrR err =>
                      logrus_Fatal ("failed to generate serial number: " +:+ err)
                  | OkR n => ret n
                  end ;;
  ret {| Raw := [];
         SerialNumber := serialNumber;
         Subject := {| Organization := [org]; CommonName := EmptyString |};
         NotBefore := notBefore;
         NotAfter := notAfter;
         KeyUsage := Z.lor KeyUsageKeyEncipherment KeyUsageDigitalSignature;
         BasicConstraintsValid := true;
         IsCA := false;
         DNSNames := [];
         IPAddresses := [] |}.

(** newPrivateKey creates a new private key *)
Definition newPrivateKey : M (res PrivateKey) :=
  rsa_GenerateKey rsaBits.

Section Program.

Variable lib : Library.

(** [x509.CreateCertificate(rand.Reader, template, parent, pub, priv)] *)
Definition x509_CreateCertificate (template parent : Certificate)
    (pub : PublicKey) (priv : PrivateKey) : M (res (list Z)) :=
  emit (EvSign template parent pub priv) ;;
  ret (x509_encode lib template parent pub priv).

(** [filepath.Join]: the elements from the first non-empty one on, joined
    by the separator and cleaned. *)
Fixpoint filepath_Join (elem : list string) : string :=
  match elem with
  | [] => EmptyString
  | e :: rest =>
      if String.eqb e EmptyString then filepath_Join rest
      else filepath_Clean lib (strings_Join elem "/")
  end.

(** generateCA creates a new CA certificate, saves the certificate and
    returns the x509 certificate and crypto private key. This private key
    should never be saved to disk, but rather used to immediately generate
    further certificates. *)
Definition generateCA (caFile : string) (validFor : Z)
    : M (res (Certificate * PrivateKey)) :=
  template <- newCertificate validFor ;;
  let template := set_IsCA true template in
  let template := set_KeyUsage (Z.lor (KeyUsage template) KeyUsageCertSign) template in
  let template := set_CommonName "Zarf Private Certificate Authority" template in
  r <- newPrivateKey ;;
  match r with
  | ErrR err => ret (ErrR err)
  | OkR priv =>
      r <- x509_CreateCertificate template template (Public priv) priv ;;
      match r with
      | ErrR err => ret (ErrR err)
      | OkR derBytes =>
          match x509_ParseCertificate lib derBytes with
          | ErrR err => ret (ErrR err)
          | OkR ca =>
              r <- os_Create caFile ;;
              match r with
              | ErrR err => ret (ErrR err)
              | OkR certOut =>
                  (* defer certOut.Close() *)
                  e <- pem_Encode certOut (mkBlock "CERTIFICATE" derBytes) ;;
                  match e with
                  | Some err => File_Close certOut ;; ret (ErrR err)
                  | None => File_Close certOut ;; ret (OkR (ca, priv))
                  end
              end
          end
      end
  end.

(** savePrivateKey saves the private key to a PEM file *)
Definition savePrivateKey (key : PrivateKey) (keyFile : string)
    : M (option error) :=
  r <- os_OpenFile keyFile (Z.lor O_WRONLY (Z.lor O_CREATE O_TRUNC)) (perm3 6 0 0) ;;
  match r with
  | ErrR err => ret (Some err)
  | OkR keyOut =>
      (* defer keyOut.Close() *)
      let keyBytes := x509_MarshalPKCS1PrivateKey key in
      pem_Encode keyOut (mkBlock "RSA PRIVATE KEY" keyBytes) ;;
      File_Close keyOut ;;
      ret None
  end.

(** generateFromTemplate generates a certificate from the given template
    and signed by the given parent, storing the results in a certificate
    and key file. *)
Definition generateFromTemplate (certFile keyFile : string)
    (template parent : Certificate) (key parentKey : PrivateKey)
    : M (option error) :=
  r <- x509_CreateCertificate template parent (Public key) parentKey ;;
  match r with
  | ErrR err => ret (Some err)
  | OkR derBytes =>
      r <- os_Create certFile ;;
      match r with
      | ErrR err => ret (Some err)
      | OkR certOut =>
          pem_Encode certOut (mkBlock "CERTIFICATE" derBytes) ;;
          File_Close certOut ;;
          savePrivateKey key keyFile
      end
  end.

(** generateCert generates a new certificate for the given host using the
    provided certificate authority. The cert and key files are stored in
    the provided files. *)
Definition generateCert (host certFile keyFile : string) (ca : Certificate)
    (caKey : PrivateKey) (validFor : Z) : M (option error) :=
  template <- newCertificate validFor ;;
  let template :=
    match net_ParseIP lib host with
    | Some ip => set_IPAddresses (IPAddresses template ++ [ip]) template
    | None =>
        (* Add localhost to make things cleaner *)
        let template :=
          set_DNSNames (DNSNames template ++ [host; "localhost"; "*.localhost"])
                       template in
        if String.eqb (CommonName (Subject template)) EmptyString
        then set_CommonName host template
        else template
    end in
  r <- newPrivateKey ;;
  match r with
  | ErrR err => ret (Some err)
  | OkR priv => generateFromTemplate certFile keyFile template ca priv caKey
  end.

(** GeneratePKI create a CA and signed server keypair *)
Definition GeneratePKI (host : string) : M unit :=
  let directory := AssetPath lib "certs" in
  CreateDirectory directory (perm3 7 0 0) ;;
  let caFile := filepath_Join [directory; "zarf-ca.pem"] in
  r <- generateCA caFile validFor ;;
  match r with
  | ErrR err => logrus_Fatal err
  | OkR (ca, caKey) =>
      let hostCert := filepath_Join [directory; "zarf-server.crt"] in
      let hostKey := filepath_Join [directory; "zarf-server.key"] in
      e <- generateCert host hostCert hostKey ca caKey validFor ;;
      match e with
      | Some err => logrus_Fatal err
      | None =>
          let publicKeyBlock := mkBlock "CERTIFICATE" (Raw ca) in
          let publicKeyPem := string_of_bytes (pem_EncodeToMemory publicKeyBlock) in
          (* Push the certs to the cluster *)
          ExecCommand [] "/usr/local/bin/kubectl"
            ["-n"; "kube-system"; "delete"; "secret"; "tls-pem"; "--ignore-not-found"] ;;
          ExecCommand [] "/usr/local/bin/kubectl"
            ["-n"; "kube-system"; "create"; "secret"; "tls"; "tls-pem";
             "--cert=" +:+ directory +:+ "/zarf-server.crt";
             "--key=" +:+ directory +:+ "/zarf-server.key"] ;;
          fmt_Println ("Ephemeral CA below and saved to " +:+ caFile
                       +:+ String (ascii_of_byte newline) EmptyString) ;;
          fmt_Println publicKeyPem
      end
  end.

End Program.

(** ** A concrete library and concrete worlds

    Used to run the program on explicit inputs. *)

Module Demo.

(** Dotted-quad IPv4 literals only, in the 16-byte form [net.ParseIP]
    returns for them. *)
Definition digit (c : ascii) : option Z :=
  let n := byte_of_ascii c in
  if (48 <=? n) && (n <=? 57) then Some (n - 48) else None.

Fixpoint fields (s : string) (cur : option Z) (acc : list Z) : option (list Z) :=
  match s with
  | EmptyString =>
      match cur with
      | Some n => Some (acc ++ [n])
      | None => None
      end
  | String c s' =>
      if Ascii.eqb c "."
      then match cur with
           | Some n => fields s' None (acc ++ [n])
           | None => None
           end
      else match digit c with
           | None => None
           | Some d =>
               let n := match cur with Some n => n * 10 + d | None => d end in
               if n <=? 255 then fields s' (Some n) acc else None
           end
  end.

Definition v4InV6Prefix : list Z := [0; 0; 0; 0; 0; 0; 0; 0; 0; 0; 255; 255].

Definition ParseIP (s : string) : option IP :=
  match fields s None [] with
  | Some [a; b; c; d] => Some (v4InV6Prefix ++ [a; b; c; d])
  | _ => None
  end.

(** A stand-in for the DER encoding: the serial number's low byte, the
    common name and the subject's public key. *)
Definition encode (template parent : Certificate) (pub : PublicKey)
    (priv : PrivateKey) : res (list Z) :=
  OkR (48 :: 130 :: to_byte (SerialNumber template)
       :: bytes_of_string (CommonName (Subject template)) ++ pub).

Definition parse (der : list Z) : res Certificate :=
  OkR {| Raw := der; SerialNumber := 0;
         Subject := {| Organization := []; CommonName := EmptyString |};
         NotBefore := 0; NotAfter := 0; KeyUsage := 0;
         BasicConstraintsValid := false; IsCA := false;
         DNSNames := []; IPAddresses := [] |}.

Definition lib : Library :=
  {| net_ParseIP := ParseIP;
     filepath_Clean := fun p => p;
     x509_encode := encode;
     x509_ParseCertificate := parse;
     AssetPath := fun partial => "/opt/zarf/" +:+ partial |}.

(** A second stand-in, which keeps the basic constraints and the key usage
    of the template in the encoding, for [parseFull] to read them back. *)
Definition encodeFull (template parent : Certificate) (pub : PublicKey)
    (priv : PrivateKey) : res (list Z) :=
  OkR (48 :: 130
       :: (if IsCA template then 255 else 0)
       :: KeyUsage template / 256 :: KeyUsage template mod 256
       :: to_byte (SerialNumber template)
       :: bytes_of_string (CommonName (Subject template)) ++ pub).

Definition parseFull (der : list Z) : res Certificate :=
  match der with
  | _ :: _ :: isCA :: hi :: lo :: serial :: _ =>
      OkR {| Raw := der; SerialNumber := serial;
             Subject := {| Organization := []; CommonName := EmptyString |};
             NotBefore := 0; NotAfter := 0; KeyUsage := hi * 256 + lo;
             BasicConstraintsValid := true; IsCA := negb (isCA =? 0);
             DNSNames := []; IPAddresses := [] |}
  | _ => ErrR "x509: malformed certificate"
  end.

Definition roundTrip : Library :=
  {| net_ParseIP := ParseIP;
     filepath_Clean := fun p => p;
     x509_encode := encodeFull;
     x509_ParseCertificate := parseFull;
     AssetPath := fun partial => "/opt/zarf/" +:+ partial |}.

Definition caKey : PrivateKey :=
  {| keyBits := 2048; pkcs1 := [48; 130; 4; 164; 1]; publicPart := [48; 130; 1; 10; 1] |}.
Definition leafKey : PrivateKey :=
  {| keyBits := 2048; pkcs1 := [48; 130; 4; 163; 2]; publicPart := [48; 130; 1; 10; 2] |}.

Definition pool : list Byte.byte :=
  [Byte.x00; Byte.x41; Byte.xff; Byte.x40; Byte.x82; Byte.x13; Byte.x7e; Byte.xc3;
   Byte.x05; Byte.x99; Byte.x3c; Byte.xd4; Byte.x61; Byte.x2a; Byte.xe7; Byte.x10;
   Byte.x8b; Byte.x57; Byte.xf0; Byte.x0c; Byte.x33; Byte.xa9; Byte.x74; Byte.x1d;
   Byte.xb6; Byte.x4e; Byte.x28; Byte.x93; Byte.xde; Byte.x06; Byte.x6a; Byte.xc1;
   Byte.x01; Byte.x02; Byte.x03; Byte.x04; Byte.x05; Byte.x06; Byte.x07; Byte.x08].

(** An empty disk on which everything succeeds. *)
Definition world : World :=
  {| files := ∅;
     dirs := ∅;
     clock := fun n => 1700000000 * Second + Z.of_nat n * 1000;
     ticks := 0;
     entropy := pool;
     keygen := [OkR caKey; OkR leafKey];
     openErr := fun _ => None;
     writeErr := fun _ => None;
     execErr := fun _ _ => None;
     trace := [] |}.

(** A CA certificate, as [generateCA] would have returned it. *)
Definition ca : Certificate :=
  {| Raw := [48; 130; 3; 9; 1];
     SerialNumber := 1;
     Subject := {| Organization := [org];
                   CommonName := "Zarf Private Certificate Authority" |};
     NotBefore := 1700000000 * Second;
     NotAfter := 1700000000 * Second + validFor;
     KeyUsage := 37;
     BasicConstraintsValid := true;
     IsCA := true;
     DNSNames := [];
     IPAddresses := [] |}.

Definition certFile : string := "/opt/zarf/certs/zarf-server.crt".
Definition keyFile : string := "/opt/zarf/certs/zarf-server.key".

(** A disk on which files can be created but no byte can be written; the
    CA exists already and the leaf key is the next one generated. *)
Definition fullDisk : World :=
  {| files := ∅;
     dirs := {[ "/opt/zarf/certs" := perm3 7 0 0 ]};
     clock := clock world;
     ticks := 1;
     entropy := pool;
     keygen := [OkR leafKey];
     openErr := fun _ => None;
     writeErr := fun _ => Some "no space left on device";
     execErr := fun _ _ => None;
     trace := [] |}.

(** A disk on which a key file is left over, readable by group and
    others. *)
Definition staleKey : World :=
  set_files {[ keyFile := mkFile (perm3 6 4 4) [] ]} world.

(** A disk on which the key file cannot be opened. *)
Definition readOnly : World :=
  {| files := ∅;
     dirs := {[ "/opt/zarf/certs" := perm3 7 0 0 ]};
     clock := clock world;
     ticks := 1;
     entropy := pool;
     keygen := [OkR leafKey];
     openErr := fun p =>
       if String.eqb p keyFile then Some "permission denied" else None;
     writeErr := fun _ => None;
     execErr := fun _ _ => None;
     trace := [] |}.

(** The library with a signature that fails. *)
Definition unsigning : Library :=
  {| net_ParseIP := ParseIP;
     filepath_Clean := fun p => p;
     x509_encode := fun _ _ _ _ => ErrR "x509: unsupported public key type";
     x509_ParseCertificate := parse;
     AssetPath := fun partial => "/opt/zarf/" +:+ partial |}.

(** An empty disk on which the CA file cannot be opened. *)
Definition noCAFile : World :=
  {| files := ∅;
     dirs := ∅;
     clock := clock world;
     ticks := 0;
     entropy := pool;
     keygen := [OkR caKey; OkR leafKey];
     openErr := fun p =>
       if String.eqb p "/opt/zarf/certs/zarf-ca.pem"
       then Some "permission denied" else None;
     writeErr := fun _ => None;
     execErr := fun _ _ => None;
     trace := [] |}.

(** A world in which the CA exists and the leaf is to be issued. *)
Definition issuing : World := set_ticks 1 (set_keygen [OkR leafKey] world).

Definition caPath : string := "/opt/zarf/certs/zarf-ca.pem".

Definition caRunRoundTrip := generateCA roundTrip caPath validFor world.
Definition dnsRunRoundTrip :=
  generateCert roundTrip "example.org" certFile keyFile ca caKey validFor issuing.
(** What [encodeFull] makes of the CA template in [world]. *)
Definition caDerRoundTrip : list Z :=
  48 :: 130 :: 255 :: 0 :: 37 :: 16
  :: bytes_of_string "Zarf Private Certificate Authority" ++ publicPart caKey.
Definition dnsRun :=
  generateCert lib "example.org" certFile keyFile ca caKey validFor issuing.
Definition ipRun :=
  generateCert lib "127.0.0.1" certFile keyFile ca caKey validFor issuing.
Definition keyRun := savePrivateKey leafKey keyFile issuing.
Definition pkiRun := GeneratePKI lib "example.org" world.

End Demo.

(** * Describing a run *)

(** ** What a run asked of the world *)

(** The requests made between [w] and a later [w']. *)
Definition since (w w' : World) : list Event :=
  drop (length (trace w)) (trace w').

(** The templates handed to [x509.CreateCertificate]. *)
Fixpoint signed (tr : list Event) : list Certificate :=
  match tr with
  | [] => []
  | EvSign template _ _ _ :: tr' => template :: signed tr'
  | _ :: tr' => signed tr'
  end.

(** The data handed to [Write], with the file it was meant for. *)
Fixpoint writes (tr : list Event) : list (string * list Z) :=
  match tr with
  | [] => []
  | EvWrite path bytes :: tr' => (path, bytes) :: writes tr'
  | _ :: tr' => writes tr'
  end.

(** The files opened, with flags and permission bits. *)
Fixpoint opens (tr : list Event) : list (string * Z * Z) :=
  match tr with
  | [] => []
  | EvOpen path flag perm :: tr' => (path, flag, perm) :: opens tr'
  | _ :: tr' => opens tr'
  end.

(** The directories asked for, with permission bits. *)
Fixpoint mkdirs (tr : list Event) : list (string * Z) :=
  match tr with
  | [] => []
  | EvMkdir path perm :: tr' => (path, perm) :: mkdirs tr'
  | _ :: tr' => mkdirs tr'
  end.

(** ** The steps of a run, as changes of the world

    The lemmas of the second part show that the operations compute what
    these definitions say. *)

(** A request recorded. *)
Definition logged (e : Event) (w : World) : World :=
  set_trace (trace w ++ [e]) w.

(** [name] opened with [O_CREATE] and [O_TRUNC]. *)
Definition truncated (name : string) (perm : Z) (w : World) : World :=
  set_files
    (<[name := mkFile (match files w !! name with
                       | Some f => mode f
                       | None => perm
                       end) []]> (files w)) w.

(** [b] written to [f]. *)
Definition appended (f : string) (b : list Z) (w : World) : World :=
  match writeErr w f with
  | Some _ => w
  | None =>
      match files w !! f with
      | Some file =>
          set_files (<[f := mkFile (mode file) (content file ++ b)]> (files w)) w
      | None => w
      end
  end.

(** [CreateDirectory] done. *)
Definition madeDir (path : string) (perm : Z) (w : World) : World :=
  match dirs w !! path with
  | Some _ => w
  | None => set_dirs (<[path := perm]> (dirs w)) w
  end.

(** The serial number that [rand.Int] makes of the next 16 bytes. *)
Definition nextSerial (w : World) : Z :=
  SetBytes (Z_of_byte <$> take 16 (entropy w)).

(** The world after [newCertificate] has read the clock and, when the
    source held them, 16 random bytes. *)
Definition afterTemplate (w : World) : World :=
  set_entropy (drop 16 (entropy w)) (set_ticks (S (ticks w)) w).

(** The template [newCertificate] builds in [w]. *)
Definition templateAt (validFor : Z) (w : World) : Certificate :=
  {| Raw := [];
     SerialNumber := nextSerial w;
     Subject := {| Organization := [org]; CommonName := EmptyString |};
     NotBefore := clock w (ticks w);
     NotAfter := clock w (ticks w) + validFor;
     KeyUsage := Z.lor KeyUsageKeyEncipherment KeyUsageDigitalSignature;
     BasicConstraintsValid := true;
     IsCA := false;
     DNSNames := [];
     IPAddresses := [] |}.

(** The PEM block [savePrivateKey] writes. *)
Definition keyPem (key : PrivateKey) : list Z :=
  pem_EncodeToMemory (mkBlock "RSA PRIVATE KEY" (x509_MarshalPKCS1PrivateKey key)).

(** How [savePrivateKey] opens the key file. *)
Definition keyOpen (keyFile : string) : Event :=
  EvOpen keyFile (Z.lor O_WRONLY (Z.lor O_CREATE O_TRUNC)) (perm3 6 0 0).

(** The PEM block written for a certificate. *)
Definition certPem (derBytes : list Z) : list Z :=
  pem_EncodeToMemory (mkBlock "CERTIFICATE" derBytes).

(** How [os.Create] opens a certificate file. *)
Definition certOpen (name : string) : Event :=
  EvOpen name (Z.lor O_RDWR (Z.lor O_CREATE O_TRUNC)) (perm3 6 6 6).

(** A certificate file opened, written to and closed. *)
Definition certWritten (name : string) (derBytes : list Z) (w : World) : World :=
  logged (EvClose name)
    (appended name (certPem derBytes)
       (logged (EvWrite name (certPem derBytes))
          (truncated name (perm3 6 6 6) (logged (certOpen name) w)))).

(** The key file opened, written to and closed. *)
Definition keyWritten (key : PrivateKey) (keyFile : string) (w : World) : World :=
  logged (EvClose keyFile)
    (appended keyFile (keyPem key)
       (logged (EvWrite keyFile (keyPem key))
          (truncated keyFile (perm3 6 0 0) (logged (keyOpen keyFile) w)))).

(** The requests of [savePrivateKey] in [w]. *)
Definition keyEvents (key : PrivateKey) (keyFile : string) (w : World)
    : list Event :=
  keyOpen keyFile
  :: match openErr w keyFile with
     | Some _ => []
     | None => [EvWrite keyFile (keyPem key); EvClose keyFile]
     end.

(** The number of byte values that the loop of [RandomString] turns into
    the character [c]. *)
Definition weight (c : Z) : nat :=
  length
    (filter (fun b =>
               index randomStringChars (b mod to_byte (len randomStringChars))
               = Some c)
            (Z.of_nat <$> seq 0 256)).

(** Whether [generateCert] and [generateCA] get as far as the signature
    in [w]: a template and a key are there. *)
Definition reaches (w : World) : option PrivateKey :=
  if (16 <=? length (entropy w))%nat
  then match keygen w with
       | OkR priv :: _ => Some priv
       | _ => None
       end
  else None.

(** The specification's words for the validity, next to the code's
    [validFor]: a duration of 13 months. Thirteen consecutive months of
    the calendar are never shorter than a common year and a February of
    28 days; counted at 30 days each they are 390 days. *)
Definition Day : Z := 24 * Hour.
Definition shortest13Months : Z := (365 + 28) * Day.
Definition thirteen30DayMonths : Z := 13 * (30 * Day).

(** The requests that matter to no claim: none is a signature, a write,
    an opening or a directory. *)
Definition quiet (tr : list Event) : Prop :=
  signed tr = [] /\ writes tr = [] /\ opens tr = [] /\ mkdirs tr = [].

(** [w'] is [w] but for the requests recorded, the clock and random
    source used up, and the files at [paths], which may have been created
    or rewritten; no file is removed. *)
Definition only_files (paths : list string) (w w' : World) : Prop :=
  dirs w' = dirs w
  /\ openErr w' = openErr w
  /\ writeErr w' = writeErr w
  /\ execErr w' = execErr w
  /\ (forall p, ~ In p paths -> files w' !! p = files w !! p)
  /\ (forall p, is_Some (files w !! p) -> is_Some (files w' !! p)).

Section Summaries.

Variable lib : Library.

(** The leaf template [generateCert] hands on in [w]: what
    [newCertificate] built, with the host added. *)
Definition leafTemplate (host : string) (validFor : Z) (w : World) : Certificate :=
  match net_ParseIP lib host with
  | Some ip =>
      set_IPAddresses (IPAddresses (templateAt validFor w) ++ [ip])
                      (templateAt validFor w)
  | None =>
      let template :=
        set_DNSNames (DNSNames (templateAt validFor w)
                      ++ [host; "localhost"; "*.localhost"])
                     (templateAt validFor w) in
      if String.eqb (CommonName (Subject template)) EmptyString
      then set_CommonName host template
      else template
  end.

(** The CA template [generateCA] hands on in [w]. *)
Definition caTemplate (validFor : Z) (w : World) : Certificate :=
  let template := set_IsCA true (templateAt validFor w) in
  let template :=
    set_KeyUsage (Z.lor (KeyUsage template) KeyUsageCertSign) template in
  set_CommonName "Zarf Private Certificate Authority" template.

(** The requests of [generateFromTemplate] in [w]. *)
Definition templateEvents (certFile keyFile : string)
    (template parent : Certificate) (key parentKey : PrivateKey) (w : World)
    : list Event :=
  EvSign template parent (Public key) parentKey
  :: match x509_encode lib template parent (Public key) parentKey with
     | ErrR _ => []
     | OkR derBytes =>
         certOpen certFile
         :: match openErr w certFile with
            | Some _ => []
            | None =>
                EvWrite certFile (certPem derBytes)
                :: EvClose certFile
                :: keyEvents key keyFile w
            end
     end.

(** The requests of [generateCert] in [w]. *)
Definition leafEvents (host certFile keyFile : string) (ca : Certificate)
    (caKey : PrivateKey) (validFor : Z) (w : World) : list Event :=
  if (16 <=? length (entropy w))%nat
  then match keygen w with
       | OkR priv :: _ =>
           templateEvents certFile keyFile (leafTemplate host validFor w)
                          ca priv caKey w
       | _ => []
       end
  else [].

(** The requests of [generateCA] in [w]. *)
Definition caEvents (caFile : string) (validFor : Z) (w : World) : list Event :=
  if (16 <=? length (entropy w))%nat
  then match keygen w with
       | OkR priv :: _ =>
           let template := caTemplate validFor w in
           EvSign template template (Public priv) priv
           :: match x509_encode lib template template (Public priv) priv with
              | ErrR _ => []
              | OkR derBytes =>
                  match x509_ParseCertificate lib derBytes with
                  | ErrR _ => []
                  | OkR _ =>
                      certOpen caFile
                      :: match openErr w caFile with
                         | Some _ => []
                         | None => [EvWrite caFile (certPem derBytes);
                                    EvClose caFile]
                         end
                  end
              end
       | _ => []
       end
  else [].

(** The directory and the three paths of [GeneratePKI]. *)
Definition certsDir : string := AssetPath lib "certs".

Definition caFile : string := filepath_Join lib [certsDir; "zarf-ca.pem"].

Definition hostCert : string := filepath_Join lib [certsDir; "zarf-server.crt"].

Definition hostKey : string := filepath_Join lib [certsDir; "zarf-server.key"].

Definition kubectl : string := "/usr/local/bin/kubectl".

Definition deleteArgs : list string :=
  ["-n"; "kube-system"; "delete"; "secret"; "tls-pem"; "--ignore-not-found"].

Definition createArgs : list string :=
  ["-n"; "kube-system"; "create"; "secret"; "tls"; "tls-pem";
   "--cert=" +:+ certsDir +:+ "/zarf-server.crt";
   "--key=" +:+ certsDir +:+ "/zarf-server.key"].

(** What [GeneratePKI] does once both creations have succeeded: the
    external client twice, then the printing of the CA. *)
Definition pushed (ca : Certificate) (w : World) : outcome unit * World :=
  let w1 := logged (EvExec [] kubectl deleteArgs) w in
  match execErr w kubectl deleteArgs with
  | Some err => (Fatal err, w1)
  | None =>
      let w2 := logged (EvExec [] kubectl createArgs) w1 in
      match execErr w kubectl createArgs with
      | Some err => (Fatal err, w2)
      | None =>
          (Ret tt,
           logged (EvPrintln (string_of_bytes (certPem (Raw ca))))
             (logged (EvPrintln ("Ephemeral CA below and saved to "
                                 +:+ caFile
                                 +:+ String (ascii_of_byte newline) EmptyString)) w2))
      end
  end.

End Summaries.

(** What [generateCA] relies on in [crypto/x509]: a certificate parsed from
    the DER bytes that [x509.CreateCertificate] made of a template with
    valid basic constraints carries the template's [IsCA] and key usage.
    (Go writes the basic-constraints extension when
    [BasicConstraintsValid] is set and the key-usage extension when
    [KeyUsage] is not 0, and [ParseCertificate] reads both.) *)
Definition reads_back (lib : Library) : Prop :=
  forall template parent pub priv derBytes cert,
    BasicConstraintsValid template = true ->
    0 <= KeyUsage template < 512 ->
    x509_encode lib template parent pub priv = OkR derBytes ->
    x509_ParseCertificate lib derBytes = OkR cert ->
    IsCA cert = IsCA template
    /\ KeyUsage cert = KeyUsage template
    /\ BasicConstraintsValid cert = true.

(** The character the loop of [RandomString] writes for the byte [b]. *)
Definition charFor (b : Z) : Z :=
  match index randomStringChars (b mod to_byte (len randomStringChars)) with
  | Some c => c
  | None => 0
  end.

(** The external commands run, with their arguments. *)
Fixpoint execs (tr : list Event) : list (string * list string) :=
  match tr with
  | [] => []
  | EvExec _ command args :: tr' => (command, args) :: execs tr'
  | _ :: tr' => execs tr'
  end.

(** The signature requests in full: template, parent, subject public key
    and signing key. *)
Fixpoint signatures (tr : list Event)
    : list (Certificate * Certificate * PublicKey * PrivateKey) :=
  match tr with
  | [] => []
  | EvSign template parent pub priv :: tr' =>
      (template, parent, pub, priv) :: signatures tr'
  | _ :: tr' => signatures tr'
  end.

(** * Properties *)

Lemma since_app (w w' : World) (new : list Event) :
  trace w' = trace w ++ new -> since w w' = new.
Proof.
  intros H. unfold since. rewrite H. apply drop_app_length.
Qed.

(** ** The random source *)

Lemma Z_of_byte_range (b : Byte.byte) : 0 <= Z_of_byte b < 256.
Proof.
  unfold Z_of_byte. pose proof (Byte.to_N_bounded b). lia.
Qed.

Lemma SetBytes_from (bytes : list Z) (acc : Z) :
  fold_left (fun acc b => acc * 256 + b) bytes acc
  = acc * 256 ^ Z.of_nat (length bytes) + SetBytes bytes.
Proof.
  unfold SetBytes. revert acc.
  induction bytes as [|b bytes IH]; intros acc; cbn [fold_left length].
  - change (256 ^ Z.of_nat 0) with 1. lia.
  - rewrite IH. rewrite (IH (0 * 256 + b)).
    rewrite Nat2Z.inj_succ, Z.pow_succ_r by lia. ring.
Qed.

Lemma SetBytes_bound (bytes : list Z) :
  Forall (fun b => 0 <= b < 256) bytes ->
  0 <= SetBytes bytes < 256 ^ Z.of_nat (length bytes).
Proof.
  induction 1 as [|b bytes Hb _ IH].
  - cbn. lia.
  - unfold SetBytes. cbn [fold_left length].
    rewrite SetBytes_from. rewrite Nat2Z.inj_succ, Z.pow_succ_r by lia.
    nia.
Qed.

Lemma read_bytes_range (n : nat) (pool : list Byte.byte) :
  Forall (fun b => 0 <= b < 256) (Z_of_byte <$> take n pool).
Proof.
  apply Forall_fmap, Forall_forall. intros b _. apply Z_of_byte_range.
Qed.

Lemma land_255 (b : Z) : 0 <= b < 256 -> Z.land b 255 = b.
Proof.
  intros H. change 255 with (Z.ones 8). rewrite Z.land_ones by lia.
  apply Z.mod_small. change (2 ^ 8) with 256. lia.
Qed.

Lemma rand_Int_128 (w : World) :
  rand_Int (Z.shiftl 1 128) w =
  if (16 <=? length (entropy w))%nat
  then (Ret (OkR (nextSerial w)), set_entropy (drop 16 (entropy w)) w)
  else (Ret (ErrR "unexpected EOF"), set_entropy [] w).
Proof.
  unfold rand_Int.
  change (Z.shiftl 1 128 <=? 0) with false. cbv iota.
  change (BitLen (Z.shiftl 1 128 - 1)) with 128.
  change (128 =? 0) with false. cbv iota zeta.
  change (128 mod 8 =? 0) with true. cbv iota.
  change (Z.to_nat ((128 + 7) / 8)) with 16%nat.
  unfold bind at 1, get. cbv iota beta.
  cbn [rand_Int_loop]. unfold bind at 1. unfold rand_Read at 1.
  unfold bind at 1, get. cbv iota beta.
  destruct (16 <=? length (entropy w))%nat eqn:Hlen.
  - unfold bind, modify, ret. cbv iota beta.
    pose proof (read_bytes_range 16 (entropy w)) as Hrange.
    unfold nextSerial.
    apply Nat.leb_le in Hlen.
    destruct (entropy w) as [|b0 pool]; [cbn in Hlen; lia|].
    change (take 16 (b0 :: pool)) with (b0 :: take 15 pool) in *.
    rewrite fmap_cons in *.
    change (to_byte (Z.shiftl 1 8 - 1)) with 255.
    rewrite land_255 by apply Z_of_byte_range.
    pose proof (SetBytes_bound _ Hrange) as Hb.
    assert (Hl : length (Z_of_byte b0 :: (Z_of_byte <$> take 15 pool)) = 16%nat).
    { cbn [length]. rewrite length_fmap, length_take. cbn in Hlen. lia. }
    rewrite Hl in Hb. change (256 ^ Z.of_nat 16) with (Z.shiftl 1 128) in Hb.
    destruct (Z.ltb_spec (SetBytes (Z_of_byte b0 :: (Z_of_byte <$> take 15 pool)))
                (Z.shiftl 1 128)) as [_|Hge]; [reflexivity|lia].
  - unfold bind, modify, ret. reflexivity.
Qed.

(** ** The template builder *)

Lemma newCertificate_run (validFor : Z) (w : World) :
  newCertificate validFor w =
  if (16 <=? length (entropy w))%nat
  then (Ret (templateAt validFor w), afterTemplate w)
  else (Fatal "failed to generate serial number: unexpected EOF",
        set_entropy [] (set_ticks (S (ticks w)) w)).
Proof.
  unfold newCertificate.
  unfold bind at 1. unfold time_Now, bind at 1, get. cbv iota beta.
  unfold bind at 1, modify. cbv iota beta. unfold ret at 1. cbv iota beta.
  unfold bind at 1. rewrite rand_Int_128.
  cbn [entropy set_ticks].
  destruct (16 <=? length (entropy w))%nat; reflexivity.
Qed.

(** ** The steps of a run, as changes of the world *)

Lemma emit_run (e : Event) (w : World) : emit e w = (Ret tt, logged e w).
Proof. reflexivity. Qed.

Lemma os_OpenFile_run (name : string) (flag perm : Z) (w : World) :
  has_flag flag O_TRUNC = true ->
  has_flag flag O_CREATE = true ->
  os_OpenFile name flag perm w =
  match openErr w name with
  | Some err => (Ret (ErrR err), logged (EvOpen name flag perm) w)
  | None => (Ret (OkR name), truncated name perm (logged (EvOpen name flag perm) w))
  end.
Proof.
  intros Htrunc Hcreate. unfold os_OpenFile, truncated.
  unfold bind at 1. rewrite emit_run. cbv iota beta.
  unfold bind at 1, get. cbv iota beta.
  cbn [openErr files logged set_trace].
  destruct (openErr w name); [reflexivity|].
  destruct (files w !! name); rewrite ?Htrunc, ?Hcreate; reflexivity.
Qed.

Lemma os_Create_run (name : string) (w : World) :
  os_Create name w =
  match openErr w name with
  | Some err =>
      (Ret (ErrR err),
       logged (EvOpen name (Z.lor O_RDWR (Z.lor O_CREATE O_TRUNC)) (perm3 6 6 6)) w)
  | None =>
      (Ret (OkR name),
       truncated name (perm3 6 6 6)
         (logged (EvOpen name (Z.lor O_RDWR (Z.lor O_CREATE O_TRUNC)) (perm3 6 6 6)) w))
  end.
Proof. unfold os_Create. now apply os_OpenFile_run. Qed.

Lemma File_Write_run (f : string) (b : list Z) (w : World) :
  File_Write f b w =
  (Ret (writeErr w f), appended f b (logged (EvWrite f b) w)).
Proof.
  unfold File_Write, appended.
  unfold bind at 1. rewrite emit_run. cbv iota beta.
  unfold bind at 1, get. cbv iota beta.
  cbn [writeErr files logged set_trace].
  destruct (writeErr w f); [reflexivity|].
  destruct (files w !! f); reflexivity.
Qed.

Lemma File_Close_run (f : string) (w : World) :
  File_Close f w = (Ret None, logged (EvClose f) w).
Proof. reflexivity. Qed.

Lemma rsa_GenerateKey_run (bits : Z) (w : World) :
  rsa_GenerateKey bits w =
  match keygen w with
  | [] => (Ret (ErrR "unexpected EOF"), w)
  | r :: rest => (Ret r, set_keygen rest w)
  end.
Proof.
  unfold rsa_GenerateKey, bind, get. cbv iota beta.
  destruct (keygen w); reflexivity.
Qed.

(** What these steps leave alone. *)

Lemma trace_logged e w : trace (logged e w) = trace w ++ [e].
Proof. reflexivity. Qed.
Lemma trace_truncated name perm w : trace (truncated name perm w) = trace w.
Proof. reflexivity. Qed.
Lemma trace_appended f b w : trace (appended f b w) = trace w.
Proof. unfold appended. destruct (writeErr w f), (files w !! f); reflexivity. Qed.
Lemma files_logged e w : files (logged e w) = files w.
Proof. reflexivity. Qed.
Lemma files_truncated_eq name perm w :
  files (truncated name perm w) !! name
  = Some (mkFile (match files w !! name with
                  | Some f => mode f
                  | None => perm
                  end) []).
Proof. unfold truncated. cbn [files set_files]. apply lookup_insert_eq. Qed.

Lemma files_appended_eq f b w file :
  files w !! f = Some file ->
  files (appended f b w) !! f
  = Some (match writeErr w f with
          | Some _ => file
          | None => mkFile (mode file) (content file ++ b)
          end).
Proof.
  intros H. unfold appended.
  destruct (writeErr w f); [exact H|].
  rewrite H. cbn [files set_files]. apply lookup_insert_eq.
Qed.

Lemma writeErr_logged e w : writeErr (logged e w) = writeErr w.
Proof. reflexivity. Qed.
Lemma writeErr_truncated name perm w : writeErr (truncated name perm w) = writeErr w.
Proof. reflexivity. Qed.
Lemma openErr_logged e w : openErr (logged e w) = openErr w.
Proof. reflexivity. Qed.
Lemma openErr_truncated name perm w : openErr (truncated name perm w) = openErr w.
Proof. reflexivity. Qed.
Lemma openErr_appended f b w : openErr (appended f b w) = openErr w.
Proof. unfold appended. destruct (writeErr w f), (files w !! f); reflexivity. Qed.
Lemma writeErr_appended f b w : writeErr (appended f b w) = writeErr w.
Proof. unfold appended. destruct (writeErr w f), (files w !! f); reflexivity. Qed.

Section Runs.

Variable lib : Library.

Lemma x509_CreateCertificate_run template parent pub priv w :
  x509_CreateCertificate lib template parent pub priv w =
  (Ret (x509_encode lib template parent pub priv),
   logged (EvSign template parent pub priv) w).
Proof. reflexivity. Qed.

Lemma savePrivateKey_run (key : PrivateKey) (keyFile : string) (w : World) :
  savePrivateKey key keyFile w =
  match openErr w keyFile with
  | Some err => (Ret (Some err), logged (keyOpen keyFile) w)
  | None => (Ret None, keyWritten key keyFile w)
  end.
Proof.
  unfold savePrivateKey, pem_Encode.
  unfold bind at 1. rewrite os_OpenFile_run by reflexivity.
  destruct (openErr w keyFile); [reflexivity|]. cbv iota beta.
  unfold bind at 1. rewrite File_Write_run. cbv iota beta.
  unfold bind at 1. rewrite File_Close_run. reflexivity.
Qed.

(** [generateFromTemplate], start to end. *)
Lemma generateFromTemplate_run certFile keyFile template parent key parentKey w :
  generateFromTemplate lib certFile keyFile template parent key parentKey w =
  let w1 := logged (EvSign template parent (Public key) parentKey) w in
  match x509_encode lib template parent (Public key) parentKey with
  | ErrR err => (Ret (Some err), w1)
  | OkR derBytes =>
      match openErr w certFile with
      | Some err => (Ret (Some err), logged (certOpen certFile) w1)
      | None => savePrivateKey key keyFile (certWritten certFile derBytes w1)
      end
  end.
Proof.
  unfold generateFromTemplate, pem_Encode.
  unfold bind at 1. rewrite x509_CreateCertificate_run. cbv iota beta zeta.
  destruct (x509_encode lib template parent (Public key) parentKey)
    as [derBytes|err]; [|reflexivity].
  unfold bind at 1. rewrite os_Create_run. rewrite openErr_logged.
  destruct (openErr w certFile); [reflexivity|]. cbv iota beta.
  unfold bind at 1. rewrite File_Write_run. cbv iota beta.
  unfold bind at 1. rewrite File_Close_run. reflexivity.
Qed.

(** [generateCert], start to end. *)
Lemma generateCert_run host certFile keyFile ca caKey validFor w :
  generateCert lib host certFile keyFile ca caKey validFor w =
  if (16 <=? length (entropy w))%nat
  then
    match keygen w with
    | [] => (Ret (Some "unexpected EOF"), afterTemplate w)
    | ErrR err :: rest => (Ret (Some err), set_keygen rest (afterTemplate w))
    | OkR priv :: rest =>
        generateFromTemplate lib certFile keyFile
          (leafTemplate lib host validFor w) ca priv caKey
          (set_keygen rest (afterTemplate w))
    end
  else (Fatal "failed to generate serial number: unexpected EOF",
        set_entropy [] (set_ticks (S (ticks w)) w)).
Proof.
  unfold generateCert, newPrivateKey.
  unfold bind at 1. rewrite newCertificate_run.
  destruct (16 <=? length (entropy w))%nat; [|reflexivity]. cbv iota beta.
  unfold bind at 1. rewrite rsa_GenerateKey_run.
  change (keygen (afterTemplate w)) with (keygen w).
  destruct (keygen w) as [|[priv|err] rest]; reflexivity.
Qed.

(** [generateCA], start to end. *)
Lemma generateCA_run caFile validFor w :
  generateCA lib caFile validFor w =
  if (16 <=? length (entropy w))%nat
  then
    match keygen w with
    | [] => (Ret (ErrR "unexpected EOF"), afterTemplate w)
    | ErrR err :: rest => (Ret (ErrR err), set_keygen rest (afterTemplate w))
    | OkR priv :: rest =>
        let template := caTemplate validFor w in
        let w1 := logged (EvSign template template (Public priv) priv)
                         (set_keygen rest (afterTemplate w)) in
        match x509_encode lib template template (Public priv) priv with
        | ErrR err => (Ret (ErrR err), w1)
        | OkR derBytes =>
            match x509_ParseCertificate lib derBytes with
            | ErrR err => (Ret (ErrR err), w1)
            | OkR ca =>
                match openErr w caFile with
                | Some err => (Ret (ErrR err), logged (certOpen caFile) w1)
                | None =>
                    (Ret (match writeErr w caFile with
                          | Some err => ErrR err
                          | None => OkR (ca, priv)
                          end),
                     certWritten caFile derBytes w1)
                end
            end
        end
    end
  else (Fatal "failed to generate serial number: unexpected EOF",
        set_entropy [] (set_ticks (S (ticks w)) w)).
Proof.
  unfold generateCA, newPrivateKey, pem_Encode.
  unfold bind at 1. rewrite newCertificate_run.
  destruct (16 <=? length (entropy w))%nat; [|reflexivity]. cbv iota beta.
  unfold bind at 1. rewrite rsa_GenerateKey_run.
  change (keygen (afterTemplate w)) with (keygen w).
  destruct (keygen w) as [|[priv|err] rest]; try reflexivity.
  cbv iota beta zeta.
  unfold bind at 1. rewrite x509_CreateCertificate_run. cbv iota beta.
  fold (caTemplate validFor w).
  destruct (x509_encode lib (caTemplate validFor w) (caTemplate validFor w)
              (Public priv) priv) as [derBytes|err]; [|reflexivity].
  destruct (x509_ParseCertificate lib derBytes) as [ca|err]; [|reflexivity].
  unfold bind at 1. rewrite os_Create_run. rewrite openErr_logged.
  change (openErr (set_keygen rest (afterTemplate w))) with (openErr w).
  destruct (openErr w caFile); [reflexivity|]. cbv iota beta.
  unfold bind at 1. rewrite File_Write_run. cbv iota beta.
  rewrite writeErr_truncated, writeErr_logged.
  change (writeErr (logged _ (set_keygen rest (afterTemplate w)))) with (writeErr w).
  destruct (writeErr w caFile); reflexivity.
Qed.

(** ** The requests of each operation *)

Lemma trace_certWritten name derBytes w :
  trace (certWritten name derBytes w)
  = trace w ++ [certOpen name; EvWrite name (certPem derBytes); EvClose name].
Proof.
  unfold certWritten.
  rewrite trace_logged, trace_appended, trace_logged, trace_truncated, trace_logged.
  now rewrite <- !app_assoc.
Qed.

Lemma openErr_certWritten name derBytes w :
  openErr (certWritten name derBytes w) = openErr w.
Proof.
  unfold certWritten.
  now rewrite openErr_logged, openErr_appended, openErr_logged,
    openErr_truncated, openErr_logged.
Qed.

Lemma savePrivateKey_trace key keyFile w r w' :
  savePrivateKey key keyFile w = (r, w') ->
  trace w' = trace w ++ keyEvents key keyFile w.
Proof.
  rewrite savePrivateKey_run. unfold keyEvents.
  destruct (openErr w keyFile); intros [= _ <-].
  - apply trace_logged.
  - unfold keyWritten.
    rewrite trace_logged, trace_appended, trace_logged, trace_truncated,
      trace_logged.
    now rewrite <- !app_assoc.
Qed.

Lemma generateFromTemplate_trace certFile keyFile template parent key parentKey
    w r w' :
  generateFromTemplate lib certFile keyFile template parent key parentKey w
  = (r, w') ->
  trace w' = trace w
             ++ templateEvents lib certFile keyFile template parent key parentKey w.
Proof.
  rewrite generateFromTemplate_run. unfold templateEvents. cbv zeta.
  destruct (x509_encode lib template parent (Public key) parentKey)
    as [derBytes|err].
  - destruct (openErr w certFile) eqn:Hopen.
    + intros [= _ <-]. rewrite !trace_logged. now rewrite <- !app_assoc.
    + intros Hkey. apply savePrivateKey_trace in Hkey. rewrite Hkey.
      rewrite trace_certWritten, trace_logged.
      unfold keyEvents. rewrite openErr_certWritten, openErr_logged.
      now rewrite <- !app_assoc.
  - intros [= _ <-]. apply trace_logged.
Qed.

Lemma generateCert_trace host certFile keyFile ca caKey validFor w r w' :
  generateCert lib host certFile keyFile ca caKey validFor w = (r, w') ->
  trace w' = trace w ++ leafEvents lib host certFile keyFile ca caKey validFor w.
Proof.
  rewrite generateCert_run. unfold leafEvents.
  destruct (16 <=? length (entropy w))%nat.
  - destruct (keygen w) as [|[priv|err] rest].
    + intros [= _ <-]. now rewrite app_nil_r.
    + intros H. apply generateFromTemplate_trace in H. exact H.
    + intros [= _ <-]. now rewrite app_nil_r.
  - intros [= _ <-]. now rewrite app_nil_r.
Qed.

Lemma generateCA_trace caFile validFor w r w' :
  generateCA lib caFile validFor w = (r, w') ->
  trace w' = trace w ++ caEvents lib caFile validFor w.
Proof.
  rewrite generateCA_run. unfold caEvents.
  destruct (16 <=? length (entropy w))%nat.
  - destruct (keygen w) as [|[priv|err] rest].
    + intros [= _ <-]. now rewrite app_nil_r.
    + cbv zeta.
      destruct (x509_encode lib (caTemplate validFor w) (caTemplate validFor w)
                  (Public priv) priv) as [derBytes|err].
      * destruct (x509_ParseCertificate lib derBytes) as [ca|err].
        -- destruct (openErr w caFile).
           ++ intros [= _ <-]. rewrite !trace_logged. now rewrite <- !app_assoc.
           ++ intros [= _ <-]. rewrite trace_certWritten, trace_logged.
              now rewrite <- !app_assoc.
        -- intros [= _ <-]. reflexivity.
      * intros [= _ <-]. reflexivity.
    + intros [= _ <-]. now rewrite app_nil_r.
  - intros [= _ <-]. now rewrite app_nil_r.
Qed.

(** ** The top-level orchestration *)

Lemma CreateDirectory_run path perm w :
  CreateDirectory path perm w
  = (Ret tt, madeDir path perm (logged (EvMkdir path perm) w)).
Proof.
  unfold CreateDirectory, madeDir.
  unfold bind at 1. rewrite emit_run. cbv iota beta.
  unfold bind at 1, get. cbv iota beta.
  destruct (dirs (logged (EvMkdir path perm) w) !! path); reflexivity.
Qed.

Lemma ExecCommand_run env commandName args w :
  ExecCommand env commandName args w =
  match execErr w commandName args with
  | Some err => (Fatal err, logged (EvExec env commandName args) w)
  | None => (Ret tt, logged (EvExec env commandName args) w)
  end.
Proof.
  unfold ExecCommand.
  unfold bind at 1. rewrite emit_run. cbv iota beta.
  unfold bind at 1, get. cbv iota beta.
  change (execErr (logged (EvExec env commandName args) w)) with (execErr w).
  destruct (execErr w commandName args); reflexivity.
Qed.

(** [GeneratePKI], start to end. *)
Lemma GeneratePKI_run host w :
  GeneratePKI lib host w =
  match generateCA lib (caFile lib) validFor
          (madeDir (certsDir lib) (perm3 7 0 0)
             (logged (EvMkdir (certsDir lib) (perm3 7 0 0)) w)) with
  | (Ret (OkR (ca, caKey)), w1) =>
      match generateCert lib host (hostCert lib) (hostKey lib) ca caKey validFor w1 with
      | (Ret None, w2) => pushed lib ca w2
      | (Ret (Some err), w2) => (Fatal err, w2)
      | (Fatal msg, w2) => (Fatal msg, w2)
      | (Panic msg, w2) => (Panic msg, w2)
      end
  | (Ret (ErrR err), w1) => (Fatal err, w1)
  | (Fatal msg, w1) => (Fatal msg, w1)
  | (Panic msg, w1) => (Panic msg, w1)
  end.
Proof.
  unfold GeneratePKI. cbv zeta.
  fold (certsDir lib). fold (caFile lib). fold (hostCert lib). fold (hostKey lib).
  unfold bind at 1. rewrite CreateDirectory_run. cbv iota beta.
  unfold bind at 1.
  destruct (generateCA lib (caFile lib) validFor _) as [[[[ca caKey]|err]|msg|msg] w1];
    try reflexivity.
  unfold bind at 1.
  destruct (generateCert lib host (hostCert lib) (hostKey lib) ca caKey validFor w1)
    as [[[err|]|msg|msg] w2]; try reflexivity.
  unfold pushed, kubectl, deleteArgs, createArgs. cbv zeta.
  unfold bind at 1. rewrite ExecCommand_run.
  destruct (execErr w2 _ _); [reflexivity|]. cbv iota beta.
  unfold bind at 1. rewrite ExecCommand_run.
  change (execErr (logged _ w2)) with (execErr w2).
  destruct (execErr w2 _ _); [reflexivity|]. cbv iota beta.
  reflexivity.
Qed.

End Runs.

(** ** The random secret generator *)

Lemma byte_of_ascii_of_byte (b : Z) :
  0 <= b < 256 -> byte_of_ascii (ascii_of_byte b) = b.
Proof.
  intros H. unfold byte_of_ascii, ascii_of_byte.
  rewrite N_ascii_embedding by lia. lia.
Qed.

Lemma byte_of_ascii_range (c : ascii) : 0 <= byte_of_ascii c < 256.
Proof.
  unfold byte_of_ascii. pose proof (N_ascii_bounded c). lia.
Qed.

Lemma bytes_of_string_of_bytes (bs : list Z) :
  Forall (fun b => 0 <= b < 256) bs ->
  bytes_of_string (string_of_bytes bs) = bs.
Proof.
  induction 1 as [|b bs Hb _ IH]; cbn [string_of_bytes bytes_of_string].
  - reflexivity.
  - now rewrite byte_of_ascii_of_byte, IH.
Qed.

Lemma length_string_of_bytes (bs : list Z) :
  String.length (string_of_bytes bs) = length bs.
Proof.
  induction bs as [|b bs IH]; cbn [string_of_bytes String.length length];
    congruence.
Qed.

Lemma index_nth_error (s : string) (i : Z) :
  0 <= i -> index s i = nth_error (bytes_of_string s) (Z.to_nat i).
Proof.
  intros Hi. unfold index.
  destruct (Z.ltb_spec i 0) as [Hneg|_]; [lia|].
  generalize (Z.to_nat i) as n. clear Hi.
  induction s as [|c s IH]; intros [|n]; cbn; try reflexivity.
  apply IH.
Qed.

(** Every byte picks a character of the alphabet. *)
Lemma pick_in_alphabet (b : Z) :
  exists c,
    index randomStringChars (b mod to_byte (len randomStringChars)) = Some c
    /\ In c (bytes_of_string randomStringChars).
Proof.
  change (to_byte (len randomStringChars)) with 65.
  pose proof (Z.mod_pos_bound b 65 ltac:(lia)) as Hb.
  rewrite index_nth_error by lia.
  destruct (nth_error (bytes_of_string randomStringChars) (Z.to_nat (b mod 65)))
    as [c|] eqn:Hc.
  - exists c. split; [reflexivity|]. eapply nth_error_In, Hc.
  - apply nth_error_None in Hc.
    change (length (bytes_of_string randomStringChars)) with 65%nat in Hc. lia.
Qed.

Lemma RandomString_loop_run (bytes : list Z) (w : World) :
  exists out,
    RandomString_loop bytes w = (Ret out, w)
    /\ Forall2 (fun b c =>
                  index randomStringChars (b mod to_byte (len randomStringChars))
                  = Some c) bytes out.
Proof.
  induction bytes as [|b bytes (out & Hrun & Hout)]; cbn [RandomString_loop].
  - exists []. split; [reflexivity|constructor].
  - destruct (pick_in_alphabet b) as (c & Hc & _). rewrite Hc.
    exists (c :: out). split.
    + unfold bind. rewrite Hrun. reflexivity.
    + now constructor.
Qed.

Lemma rand_Read_run (n : nat) (w : World) :
  (n <= length (entropy w))%nat ->
  rand_Read n w
  = (Ret (OkR (Z_of_byte <$> take n (entropy w))),
     set_entropy (drop n (entropy w)) w).
Proof.
  intros H. unfold rand_Read, bind, get. cbv iota beta.
  apply Nat.leb_le in H. rewrite H. reflexivity.
Qed.

Lemma rand_Read_short (n : nat) (w : World) :
  (length (entropy w) < n)%nat ->
  rand_Read n w = (Ret (ErrR "unexpected EOF"), set_entropy [] w).
Proof.
  intros H. unfold rand_Read, bind, get. cbv iota beta.
  apply Nat.leb_gt in H. rewrite H. reflexivity.
Qed.

(** C2, as the specification has it, fails: the alphabet has 65
    characters, not 70, and the characters are not drawn uniformly: of the
    256 byte values, four give the character 0 and three give the
    character -. *)
Lemma RandomString_alphabet_not_70_nor_uniform :
  len randomStringChars <> 70
  /\ weight (byte_of_ascii "0") <> weight (byte_of_ascii "-").
Proof.
  split.
  - vm_compute. discriminate.
  - vm_compute. discriminate.
Qed.

(** C2, amended: for every length [0 <= n] that the secure random
    source can serve, [RandomString n] returns a string of exactly [n]
    characters, each of them the character of the 65-character alphabet
    [randomStringChars] at index [b mod 65] for the random byte [b] read at
    its position. *)
Theorem RandomString_length_alphabet (n : Z) (w : World) :
  0 <= n ->
  (Z.to_nat n <= length (entropy w))%nat ->
  exists s,
    RandomString n w
    = (Ret s, set_entropy (drop (Z.to_nat n) (entropy w)) w)
    /\ len s = n
    /\ Forall (fun c => In c (bytes_of_string randomStringChars))
              (bytes_of_string s)
    /\ len randomStringChars = 65
    /\ Forall2 (fun b c => index randomStringChars (b mod 65) = Some c)
               (Z_of_byte <$> take (Z.to_nat n) (entropy w))
               (bytes_of_string s).
Proof.
  intros Hlen Hpool. unfold RandomString.
  unfold bind at 1. unfold make_bytes.
  destruct (Z.ltb_spec n 0) as [Hneg|_]; [lia|].
  unfold ret at 1. cbv iota beta.
  rewrite repeat_length.
  unfold bind at 1. rewrite rand_Read_run by exact Hpool. cbv iota beta.
  unfold bind at 1. unfold ret at 1. cbv iota beta.
  set (w1 := set_entropy _ w).
  set (bytes := Z_of_byte <$> take (Z.to_nat n) (entropy w)).
  destruct (RandomString_loop_run bytes w1) as (out & Hrun & Hout).
  unfold bind. rewrite Hrun. cbv iota beta. unfold ret.
  exists (string_of_bytes out).
  assert (Hin : Forall (fun c => In c (bytes_of_string randomStringChars)) out).
  { clear Hrun. induction Hout as [|b c bytes' out' Hc _ IH]; constructor.
    - destruct (pick_in_alphabet b) as (c' & Hc' & Hin). congruence.
    - exact IH. }
  assert (Hrange : Forall (fun c => 0 <= c < 256) out).
  { eapply Forall_impl; [exact Hin|]. cbv beta. intros c Hc.
    clear -Hc. revert Hc. generalize randomStringChars as s.
    induction s as [|a s IH]; cbn [bytes_of_string In]; [tauto|].
    intros [<-|H]; [apply byte_of_ascii_range|now apply IH]. }
  rewrite bytes_of_string_of_bytes by exact Hrange.
  split; [reflexivity|].
  split.
  { unfold len. rewrite length_string_of_bytes.
    apply Forall2_length in Hout. rewrite <- Hout. unfold bytes.
    rewrite length_fmap, length_take. lia. }
  split; [exact Hin|].
  split; [reflexivity|].
  exact Hout.
Qed.

Lemma RandomString_length_alphabet_witness :
  exists s,
    RandomString 20 Demo.world
    = (Ret s, set_entropy (drop (Z.to_nat 20) (entropy Demo.world)) Demo.world)
    /\ len s = 20
    /\ Forall (fun c => In c (bytes_of_string randomStringChars))
              (bytes_of_string s)
    /\ len randomStringChars = 65
    /\ Forall2 (fun b c => index randomStringChars (b mod 65) = Some c)
               (Z_of_byte <$> take (Z.to_nat 20) (entropy Demo.world))
               (bytes_of_string s).
Proof.
  apply (RandomString_length_alphabet 20 Demo.world); [lia | vm_compute; lia].
Defined.

(** ** Reading the requests of a run *)

(** Case analysis on a hypothesis [In x [a; b; ...]]. *)
Ltac in_cases H :=
  cbn [In] in H;
  repeat match type of H with
         | _ \/ _ => destruct H as [H|H]
         | False => destruct H
         end.

Lemma signed_app (l1 l2 : list Event) : signed (l1 ++ l2) = signed l1 ++ signed l2.
Proof.
  induction l1 as [|[] l1 IH]; cbn [signed app]; rewrite ?IH; reflexivity.
Qed.

Lemma writes_app (l1 l2 : list Event) : writes (l1 ++ l2) = writes l1 ++ writes l2.
Proof.
  induction l1 as [|[] l1 IH]; cbn [writes app]; rewrite ?IH; reflexivity.
Qed.

Lemma mkdirs_app (l1 l2 : list Event) : mkdirs (l1 ++ l2) = mkdirs l1 ++ mkdirs l2.
Proof.
  induction l1 as [|[] l1 IH]; cbn [mkdirs app]; rewrite ?IH; reflexivity.
Qed.

Section Requests.

Variable lib : Library.

Lemma signed_leafEvents host certFile keyFile ca caKey validFor w :
  signed (leafEvents lib host certFile keyFile ca caKey validFor w)
  = match reaches w with
    | Some _ => [leafTemplate lib host validFor w]
    | None => []
    end.
Proof.
  unfold leafEvents, reaches, templateEvents, keyEvents, keyOpen, certOpen.
  destruct (16 <=? length (entropy w))%nat; [|reflexivity].
  destruct (keygen w) as [|[priv|err] rest]; try reflexivity.
  destruct (x509_encode lib _ _ _ _); [|reflexivity].
  destruct (openErr w certFile); [reflexivity|].
  destruct (openErr w keyFile); reflexivity.
Qed.

Lemma signed_caEvents caFile validFor w :
  signed (caEvents lib caFile validFor w)
  = match reaches w with
    | Some _ => [caTemplate validFor w]
    | None => []
    end.
Proof.
  unfold caEvents, reaches, certOpen.
  destruct (16 <=? length (entropy w))%nat; [|reflexivity].
  destruct (keygen w) as [|[priv|err] rest]; try reflexivity.
  cbv zeta.
  destruct (x509_encode lib _ _ _ _) as [derBytes|]; [|reflexivity].
  destruct (x509_ParseCertificate lib derBytes); [|reflexivity].
  destruct (openErr w caFile); reflexivity.
Qed.

Lemma generateCert_signed host certFile keyFile ca caKey validFor w r w' :
  generateCert lib host certFile keyFile ca caKey validFor w = (r, w') ->
  signed (since w w')
  = match reaches w with
    | Some _ => [leafTemplate lib host validFor w]
    | None => []
    end.
Proof.
  intros H. apply generateCert_trace in H.
  rewrite (since_app _ _ _ H). apply signed_leafEvents.
Qed.

Lemma generateCA_signed caFile validFor w r w' :
  generateCA lib caFile validFor w = (r, w') ->
  signed (since w w')
  = match reaches w with
    | Some _ => [caTemplate validFor w]
    | None => []
    end.
Proof.
  intros H. apply generateCA_trace in H.
  rewrite (since_app _ _ _ H). apply signed_caEvents.
Qed.

(** The leaf template of a host that is not an IP literal. *)
Lemma leafTemplate_dns host validFor w :
  net_ParseIP lib host = None ->
  leafTemplate lib host validFor w
  = set_CommonName host
      (set_DNSNames [host; "localhost"; "*.localhost"] (templateAt validFor w)).
Proof.
  intros H. unfold leafTemplate. rewrite H. reflexivity.
Qed.

(** The leaf template of a host that is an IP literal. *)
Lemma leafTemplate_ip host ip validFor w :
  net_ParseIP lib host = Some ip ->
  leafTemplate lib host validFor w
  = set_IPAddresses [ip] (templateAt validFor w).
Proof.
  intros H. unfold leafTemplate. rewrite H. reflexivity.
Qed.

(** C5: for a host that does not parse as an IP literal, the template that
    [generateCert] has signed carries exactly the DNS names host,
    localhost and *.localhost, no IP address, and the host as its common
    name; and [generateCert] does have such a template signed as soon as
    the random source serves the serial number and a key is generated. *)
Theorem generateCert_dns_host host certFile keyFile ca caKey validFor w r w' :
  net_ParseIP lib host = None ->
  generateCert lib host certFile keyFile ca caKey validFor w = (r, w') ->
  (forall t, In t (signed (since w w')) ->
     DNSNames t = [host; "localhost"; "*.localhost"]
     /\ IPAddresses t = []
     /\ CommonName (Subject t) = host)
  /\ (forall priv, reaches w = Some priv ->
        exists t, signed (since w w') = [t]).
Proof.
  intros Hhost Hrun. rewrite (generateCert_signed _ _ _ _ _ _ _ _ _ Hrun).
  rewrite (leafTemplate_dns _ _ _ Hhost).
  destruct (reaches w) as [priv|]; split.
  - intros t [<-|[]]. cbn. auto.
  - intros _ _. eauto.
  - intros t [].
  - intros priv [=].
Qed.

(** C6: for a host that parses as an IP literal, the template that
    [generateCert] has signed carries exactly that address as its IP
    addresses and no DNS name; and [generateCert] does have such a
    template signed as soon as the random source serves the serial number
    and a key is generated. *)
Theorem generateCert_ip_host host ip certFile keyFile ca caKey validFor w r w' :
  net_ParseIP lib host = Some ip ->
  generateCert lib host certFile keyFile ca caKey validFor w = (r, w') ->
  (forall t, In t (signed (since w w')) ->
     IPAddresses t = [ip] /\ DNSNames t = [])
  /\ (forall priv, reaches w = Some priv ->
        exists t, signed (since w w') = [t]).
Proof.
  intros Hhost Hrun. rewrite (generateCert_signed _ _ _ _ _ _ _ _ _ Hrun).
  rewrite (leafTemplate_ip _ _ _ _ Hhost).
  destruct (reaches w) as [priv|]; split.
  - intros t [<-|[]]. cbn. auto.
  - intros _ _. eauto.
  - intros t [].
  - intros priv [=].
Qed.

(** C10: for a host that parses as an IP literal, the template that
    [generateCert] has signed has an empty common name and the fixed
    organization as its only subject field. *)
Theorem generateCert_ip_host_no_common_name
    host ip certFile keyFile ca caKey validFor w r w' :
  net_ParseIP lib host = Some ip ->
  generateCert lib host certFile keyFile ca caKey validFor w = (r, w') ->
  (forall t, In t (signed (since w w')) ->
     CommonName (Subject t) = EmptyString /\ Organization (Subject t) = [org])
  /\ (forall priv, reaches w = Some priv ->
        exists t, signed (since w w') = [t]).
Proof.
  intros Hhost Hrun. rewrite (generateCert_signed _ _ _ _ _ _ _ _ _ Hrun).
  rewrite (leafTemplate_ip _ _ _ _ Hhost).
  destruct (reaches w) as [priv|]; split.
  - intros t [<-|[]]. cbn. auto.
  - intros _ _. eauto.
  - intros t [].
  - intros priv [=].
Qed.

End Requests.

(** ** What a run leaves alone *)

Lemma only_files_refl paths w : only_files paths w w.
Proof. unfold only_files. auto 10. Qed.

Lemma only_files_trans paths w1 w2 w3 :
  only_files paths w1 w2 -> only_files paths w2 w3 -> only_files paths w1 w3.
Proof.
  intros (Hd & Ho & Hw & He & Hf & Hs) (Hd' & Ho' & Hw' & He' & Hf' & Hs').
  unfold only_files. repeat split; try congruence.
  - intros p Hp. rewrite Hf', Hf by exact Hp. reflexivity.
  - auto.
Qed.

Lemma only_files_mono paths paths' w w' :
  (forall p, In p paths -> In p paths') ->
  only_files paths w w' -> only_files paths' w w'.
Proof.
  intros Hsub (Hd & Ho & Hw & He & Hf & Hs).
  unfold only_files. repeat split; auto.
Qed.

Lemma only_files_logged paths e w : only_files paths w (logged e w).
Proof. unfold only_files. cbn. auto 10. Qed.

Lemma only_files_set_keygen paths k w : only_files paths w (set_keygen k w).
Proof. unfold only_files. cbn. auto 10. Qed.

Lemma only_files_set_entropy paths e w : only_files paths w (set_entropy e w).
Proof. unfold only_files. cbn. auto 10. Qed.

Lemma only_files_set_ticks paths n w : only_files paths w (set_ticks n w).
Proof. unfold only_files. cbn. auto 10. Qed.

Lemma only_files_afterTemplate paths w : only_files paths w (afterTemplate w).
Proof. unfold only_files. cbn. auto 10. Qed.

Lemma only_files_truncated name perm w :
  only_files [name] w (truncated name perm w).
Proof.
  unfold only_files, truncated. cbn [dirs openErr writeErr execErr files set_files].
  repeat split.
  - intros p Hp. apply lookup_insert_ne. intros ->. apply Hp. now left.
  - intros p Hp. destruct (decide (name = p)) as [->|Hne].
    + rewrite lookup_insert_eq. eauto.
    + now rewrite lookup_insert_ne.
Qed.

Lemma only_files_appended f b w : only_files [f] w (appended f b w).
Proof.
  unfold appended.
  destruct (writeErr w f); [apply only_files_refl|].
  destruct (files w !! f) as [file|] eqn:Hfile; [|apply only_files_refl].
  unfold only_files. cbn [dirs openErr writeErr execErr files set_files].
  repeat split.
  - intros p Hp. apply lookup_insert_ne. intros ->. apply Hp. now left.
  - intros p Hp. destruct (decide (f = p)) as [->|Hne].
    + rewrite lookup_insert_eq. eauto.
    + now rewrite lookup_insert_ne.
Qed.

Lemma only_files_certWritten name derBytes w :
  only_files [name] w (certWritten name derBytes w).
Proof.
  unfold certWritten.
  eapply only_files_trans; [apply only_files_logged|].
  eapply only_files_trans; [apply only_files_truncated|].
  eapply only_files_trans; [apply only_files_logged|].
  eapply only_files_trans; [apply only_files_appended|].
  apply only_files_logged.
Qed.

Lemma only_files_keyWritten key keyFile w :
  only_files [keyFile] w (keyWritten key keyFile w).
Proof.
  unfold keyWritten.
  eapply only_files_trans; [apply only_files_logged|].
  eapply only_files_trans; [apply only_files_truncated|].
  eapply only_files_trans; [apply only_files_logged|].
  eapply only_files_trans; [apply only_files_appended|].
  apply only_files_logged.
Qed.

(** The file that [name] is once opened, written to and closed: the
    permission bits it had, or those of the creation, and the data when
    the write went through. *)
Lemma files_written name perm e1 e2 e3 data w :
  files (logged e3 (appended name data (logged e2 (truncated name perm
           (logged e1 w))))) !! name
  = Some (mkFile (match files w !! name with
                  | Some f => mode f
                  | None => perm
                  end)
                 (match writeErr w name with
                  | Some _ => []
                  | None => data
                  end)).
Proof.
  rewrite files_logged.
  erewrite files_appended_eq;
    [|rewrite files_logged; apply files_truncated_eq].
  rewrite writeErr_logged, writeErr_truncated, writeErr_logged, files_logged.
  destruct (writeErr w name); reflexivity.
Qed.

Lemma files_certWritten name derBytes w :
  files (certWritten name derBytes w) !! name
  = Some (mkFile (match files w !! name with
                  | Some f => mode f
                  | None => perm3 6 6 6
                  end)
                 (match writeErr w name with
                  | Some _ => []
                  | None => certPem derBytes
                  end)).
Proof. apply files_written. Qed.

Lemma files_keyWritten key keyFile w :
  files (keyWritten key keyFile w) !! keyFile
  = Some (mkFile (match files w !! keyFile with
                  | Some f => mode f
                  | None => perm3 6 0 0
                  end)
                 (match writeErr w keyFile with
                  | Some _ => []
                  | None => keyPem key
                  end)).
Proof. apply files_written. Qed.

Lemma savePrivateKey_frame key keyFile w r w' :
  savePrivateKey key keyFile w = (r, w') -> only_files [keyFile] w w'.
Proof.
  rewrite savePrivateKey_run.
  destruct (openErr w keyFile); intros [= _ <-].
  - apply only_files_logged.
  - apply only_files_keyWritten.
Qed.

Section Frames.

Variable lib : Library.

Lemma generateFromTemplate_frame certFile keyFile template parent key parentKey
    w r w' :
  generateFromTemplate lib certFile keyFile template parent key parentKey w
  = (r, w') ->
  only_files [certFile; keyFile] w w'.
Proof.
  rewrite generateFromTemplate_run. cbv zeta.
  destruct (x509_encode lib template parent (Public key) parentKey)
    as [derBytes|err].
  - destruct (openErr w certFile).
    + intros [= _ <-].
      eapply only_files_trans; apply only_files_logged.
    + intros Hkey. apply savePrivateKey_frame in Hkey.
      eapply only_files_trans; [apply only_files_logged|].
      eapply only_files_trans.
      * eapply only_files_mono; [|apply only_files_certWritten].
        intros p [<-|[]]. now left.
      * eapply only_files_mono; [|exact Hkey].
        intros p [<-|[]]. right. now left.
  - intros [= _ <-]. apply only_files_logged.
Qed.

Lemma generateCert_frame host certFile keyFile ca caKey validFor w r w' :
  generateCert lib host certFile keyFile ca caKey validFor w = (r, w') ->
  only_files [certFile; keyFile] w w'.
Proof.
  rewrite generateCert_run.
  destruct (16 <=? length (entropy w))%nat.
  - destruct (keygen w) as [|[priv|err] rest].
    + intros [= _ <-]. apply only_files_afterTemplate.
    + intros H. apply generateFromTemplate_frame in H.
      eapply only_files_trans; [apply only_files_afterTemplate|].
      eapply only_files_trans; [apply only_files_set_keygen|]. exact H.
    + intros [= _ <-].
      eapply only_files_trans; [apply only_files_afterTemplate|].
      apply only_files_set_keygen.
  - intros [= _ <-].
    eapply only_files_trans; [apply only_files_set_ticks|].
    apply only_files_set_entropy.
Qed.

Lemma generateCA_frame caFile validFor w r w' :
  generateCA lib caFile validFor w = (r, w') -> only_files [caFile] w w'.
Proof.
  rewrite generateCA_run.
  assert (Hstart : forall rest,
             only_files [caFile] w (set_keygen rest (afterTemplate w))).
  { intros rest.
    eapply only_files_trans; [apply only_files_afterTemplate|].
    apply only_files_set_keygen. }
  destruct (16 <=? length (entropy w))%nat.
  - destruct (keygen w) as [|[priv|err] rest].
    + intros [= _ <-]. apply only_files_afterTemplate.
    + cbv zeta.
      destruct (x509_encode lib _ _ _ _) as [derBytes|err].
      * destruct (x509_ParseCertificate lib derBytes) as [ca|err].
        -- destruct (openErr w caFile); intros [= _ <-].
           ++ eapply only_files_trans; [apply Hstart|].
              eapply only_files_trans; apply only_files_logged.
           ++ eapply only_files_trans; [apply Hstart|].
              eapply only_files_trans; [apply only_files_logged|].
              apply only_files_certWritten.
        -- intros [= _ <-].
           eapply only_files_trans; [apply Hstart|]. apply only_files_logged.
      * intros [= _ <-].
        eapply only_files_trans; [apply Hstart|]. apply only_files_logged.
    + intros [= _ <-]. apply Hstart.
  - intros [= _ <-].
    eapply only_files_trans; [apply only_files_set_ticks|].
    apply only_files_set_entropy.
Qed.

End Frames.

(** ** CA creation *)

Section CA.

Variable lib : Library.


End CA.

(** ** Successful creations *)

Section Success.

Variable lib : Library.

(** What a successful [generateCA] has done. *)
Lemma generateCA_success caFile validFor w ca priv w' :
  generateCA lib caFile validFor w = (Ret (OkR (ca, priv)), w') ->
  exists rest derBytes,
    (16 <=? length (entropy w))%nat = true
    /\ keygen w = OkR priv :: rest
    /\ x509_encode lib (caTemplate validFor w) (caTemplate validFor w)
                   (Public priv) priv = OkR derBytes
    /\ x509_ParseCertificate lib derBytes = OkR ca
    /\ openErr w caFile = None
    /\ writeErr w caFile = None
    /\ w' = certWritten caFile derBytes
              (logged (EvSign (caTemplate validFor w) (caTemplate validFor w)
                              (Public priv) priv)
                      (set_keygen rest (afterTemplate w))).
Proof.
  rewrite generateCA_run.
  destruct (16 <=? length (entropy w))%nat; [|discriminate].
  destruct (keygen w) as [|[priv'|err] rest]; try discriminate.
  cbv zeta.
  destruct (x509_encode lib _ _ _ _) as [derBytes|err] eqn:Hder;
    [|discriminate].
  destruct (x509_ParseCertificate lib derBytes) as [ca'|err] eqn:Hparse;
    [|discriminate].
  destruct (openErr w caFile) eqn:Hopen; [discriminate|].
  destruct (writeErr w caFile) eqn:Hwrite; [discriminate|].
  intros [= <- <- <-]. exists rest, derBytes. auto 10.
Qed.

(** What a [generateCert] that returns [nil] has done. *)
Lemma generateCert_success host certFile keyFile ca caKey validFor w w' :
  generateCert lib host certFile keyFile ca caKey validFor w = (Ret None, w') ->
  exists priv rest derBytes,
    (16 <=? length (entropy w))%nat = true
    /\ keygen w = OkR priv :: rest
    /\ x509_encode lib (leafTemplate lib host validFor w) ca (Public priv) caKey
       = OkR derBytes
    /\ openErr w certFile = None
    /\ openErr w keyFile = None
    /\ w' = keyWritten priv keyFile
              (certWritten certFile derBytes
                 (logged (EvSign (leafTemplate lib host validFor w) ca
                                 (Public priv) caKey)
                         (set_keygen rest (afterTemplate w)))).
Proof.
  rewrite generateCert_run.
  destruct (16 <=? length (entropy w))%nat; [|discriminate].
  destruct (keygen w) as [|[priv|err] rest]; try discriminate.
  rewrite generateFromTemplate_run. cbv zeta.
  destruct (x509_encode lib _ _ _ _) as [derBytes|err] eqn:Hder;
    [|discriminate].
  change (openErr (set_keygen rest (afterTemplate w))) with (openErr w).
  destruct (openErr w certFile) eqn:Hopen; [discriminate|].
  rewrite savePrivateKey_run, openErr_certWritten, openErr_logged.
  change (openErr (set_keygen rest (afterTemplate w))) with (openErr w).
  destruct (openErr w keyFile) eqn:Hkey; [discriminate|].
  intros [= <-]. exists priv, rest, derBytes. auto 10.
Qed.

Lemma filepath_Join_two (dir name : string) :
  dir <> EmptyString ->
  filepath_Join lib [dir; name] = filepath_Clean lib (dir +:+ "/" +:+ name).
Proof.
  intros Hdir. cbn [filepath_Join strings_Join].
  destruct (String.eqb_spec dir EmptyString); [contradiction|reflexivity].
Qed.

Lemma pushed_spec ca w r w' :
  pushed lib ca w = (r, w') ->
  only_files [] w w'
  /\ exists tail, trace w' = trace w ++ tail /\ quiet tail.
Proof.
  unfold pushed. cbv zeta.
  destruct (execErr w kubectl deleteArgs).
  { intros [= _ <-]. split; [apply only_files_logged|].
    eexists. split; [apply trace_logged|]. repeat split. }
  destruct (execErr w kubectl (createArgs lib)).
  { intros [= _ <-]. split.
    - eapply only_files_trans; apply only_files_logged.
    - eexists. split; [rewrite !trace_logged, <- !app_assoc; reflexivity|].
      repeat split. }
  intros [= _ <-]. split.
  - unfold only_files. cbn. auto 10.
  - eexists. split; [rewrite !trace_logged, <- !app_assoc; reflexivity|].
    repeat split.
Qed.

(** [GeneratePKI], stage by stage: the directory, the CA, and, when there
    is a CA, the leaf, and, when there is a leaf, the rest. *)
Lemma GeneratePKI_stages host w r w' :
  GeneratePKI lib host w = (r, w') ->
  exists r1 w1,
    generateCA lib (caFile lib) validFor
      (madeDir (certsDir lib) (perm3 7 0 0)
         (logged (EvMkdir (certsDir lib) (perm3 7 0 0)) w)) = (r1, w1)
    /\ ((w' = w1 /\ r <> Ret tt)
        \/ exists ca caKey r2 w2,
             r1 = Ret (OkR (ca, caKey))
             /\ generateCert lib host (hostCert lib) (hostKey lib) ca caKey
                  validFor w1 = (r2, w2)
             /\ ((w' = w2 /\ r <> Ret tt)
                 \/ (r2 = Ret None /\ pushed lib ca w2 = (r, w')))).
Proof.
  rewrite GeneratePKI_run.
  destruct (generateCA lib (caFile lib) validFor _)
    as [[[[ca caKey]|err]|msg|msg] w1] eqn:Hca;
    try (intros [= <- <-]; do 2 eexists; split; [reflexivity|left];
         split; [reflexivity|discriminate]).
  destruct (generateCert lib host (hostCert lib) (hostKey lib) ca caKey validFor w1)
    as [[[err|]|msg|msg] w2] eqn:Hleaf; intros H;
    do 2 eexists; (split; [reflexivity|right]);
    exists ca, caKey; do 2 eexists;
    (split; [reflexivity|]); (split; [exact Hleaf|]).
  all: try (injection H as <- <-; left; split; [reflexivity|discriminate]).
  right. split; [reflexivity|exact H].
Qed.

End Success.

(** ** The orchestration *)

Section Orchestration.

Variable lib : Library.

Lemma trace_madeDir path perm w : trace (madeDir path perm w) = trace w.
Proof. unfold madeDir. destruct (dirs w !! path); reflexivity. Qed.

Lemma mkdirs_leafEvents host certFile keyFile ca caKey validFor w :
  mkdirs (leafEvents lib host certFile keyFile ca caKey validFor w) = [].
Proof.
  unfold leafEvents, templateEvents, keyEvents, keyOpen, certOpen.
  destruct (16 <=? length (entropy w))%nat; [|reflexivity].
  destruct (keygen w) as [|[priv|err] rest]; try reflexivity.
  destruct (x509_encode lib _ _ _ _); [|reflexivity].
  destruct (openErr w certFile); [reflexivity|].
  destruct (openErr w keyFile); reflexivity.
Qed.

Lemma mkdirs_caEvents caFile validFor w :
  mkdirs (caEvents lib caFile validFor w) = [].
Proof.
  unfold caEvents, certOpen.
  destruct (16 <=? length (entropy w))%nat; [|reflexivity].
  destruct (keygen w) as [|[priv|err] rest]; try reflexivity.
  cbv zeta.
  destruct (x509_encode lib _ _ _ _) as [derBytes|]; [|reflexivity].
  destruct (x509_ParseCertificate lib derBytes); [|reflexivity].
  destruct (openErr w caFile); reflexivity.
Qed.

(** The requests of [GeneratePKI]: the directory, those of the CA, those
    of the leaf if it comes to it, and a quiet rest. *)
Lemma GeneratePKI_requests host w r w' :
  GeneratePKI lib host w = (r, w') ->
  exists w0 leaf tail,
    w0 = madeDir (certsDir lib) (perm3 7 0 0)
           (logged (EvMkdir (certsDir lib) (perm3 7 0 0)) w)
    /\ since w w'
       = EvMkdir (certsDir lib) (perm3 7 0 0)
         :: caEvents lib (caFile lib) validFor w0 ++ leaf ++ tail
    /\ quiet tail
    /\ (leaf = []
        \/ exists ca caKey w1,
             leaf = leafEvents lib host (hostCert lib) (hostKey lib) ca caKey
                      validFor w1)
    /\ dirs w' = dirs w0.
Proof.
  intros H. apply GeneratePKI_stages in H.
  destruct H as (r1 & w1 & Hca & Hrest).
  set (w0 := madeDir _ _ _) in *.
  assert (Hw0 : trace w0 = trace w ++ [EvMkdir (certsDir lib) (perm3 7 0 0)]).
  { unfold w0. now rewrite trace_madeDir, trace_logged. }
  pose proof (generateCA_trace _ _ _ _ _ _ Hca) as Htca.
  destruct (generateCA_frame _ _ _ _ _ _ Hca) as (Hdca & _).
  exists w0.
  destruct Hrest as [[-> _]|(ca & caKey & r2 & w2 & -> & Hleaf & Hrest)].
  { exists [], []. split; [reflexivity|]. split.
    - apply since_app. rewrite Htca, Hw0, !app_nil_r, <- app_assoc. reflexivity.
    - repeat split; auto. }
  pose proof (generateCert_trace _ _ _ _ _ _ _ _ _ _ Hleaf) as Htleaf.
  destruct (generateCert_frame _ _ _ _ _ _ _ _ _ _ Hleaf) as (Hdleaf & _).
  destruct Hrest as [[-> _]|[-> Hpush]].
  { exists (leafEvents lib host (hostCert lib) (hostKey lib) ca caKey validFor w1), [].
    split; [reflexivity|]. split.
    - apply since_app. rewrite Htleaf, Htca, Hw0, !app_nil_r, <- !app_assoc.
      reflexivity.
    - repeat split; eauto; congruence. }
  destruct (pushed_spec _ _ _ _ _ Hpush)
    as ((Hdpush & _) & tail & Httail & Hquiet).
  exists (leafEvents lib host (hostCert lib) (hostKey lib) ca caKey validFor w1), tail.
  split; [reflexivity|]. split.
  - apply since_app. rewrite Httail, Htleaf, Htca, Hw0, <- !app_assoc.
    reflexivity.
  - repeat split; try apply Hquiet; eauto; congruence.
Qed.

Lemma validity_templateAt validFor w :
  time_Sub (NotAfter (templateAt validFor w)) (NotBefore (templateAt validFor w))
  = validFor.
Proof. unfold time_Sub. cbn. lia. Qed.

Lemma validity_caTemplate validFor w :
  time_Sub (NotAfter (caTemplate validFor w)) (NotBefore (caTemplate validFor w))
  = validFor.
Proof. unfold time_Sub. cbn. lia. Qed.

Lemma validity_leafTemplate host validFor w :
  time_Sub (NotAfter (leafTemplate lib host validFor w))
           (NotBefore (leafTemplate lib host validFor w))
  = validFor.
Proof.
  unfold time_Sub, leafTemplate. destruct (net_ParseIP lib host); cbn; lia.
Qed.

(** C3, as the specification has it, fails: the validity that the
    templates get is [validFor], 375 days, which is shorter than any 13
    months, counted by the calendar or at 30 days each. *)
Lemma newCertificate_validity_is_not_13_months :
  exists t w',
    newCertificate validFor Demo.world = (Ret t, w')
    /\ time_Sub (NotAfter t) (NotBefore t) = 375 * Day
    /\ time_Sub (NotAfter t) (NotBefore t) < shortest13Months
    /\ time_Sub (NotAfter t) (NotBefore t) <> thirteen30DayMonths.
Proof.
  exists (templateAt validFor Demo.world), (afterTemplate Demo.world).
  split; [rewrite newCertificate_run; reflexivity|].
  rewrite validity_templateAt. vm_compute. repeat split; discriminate.
Qed.

(** C3, amended: a template that [newCertificate] returns has [NotAfter]
    minus [NotBefore] equal to the validity it was given, and [NotBefore]
    equal to the reading of the clock it took; it does return a template
    when the random source serves the 16 bytes of the serial number. In a
    run of [GeneratePKI], the CA template and the leaf template alike have
    [NotAfter] minus [NotBefore] equal to the one constant [validFor],
    which is 375 days of 24 hours. *)
Theorem newCertificate_validity :
  (forall d w t w',
     newCertificate d w = (Ret t, w') ->
     time_Sub (NotAfter t) (NotBefore t) = d
     /\ NotBefore t = clock w (ticks w)
     /\ NotAfter t = time_Add (clock w (ticks w)) d)
  /\ (forall d w,
        (16 <= length (entropy w))%nat ->
        exists t w', newCertificate d w = (Ret t, w'))
  /\ (forall host w r w',
        GeneratePKI lib host w = (r, w') ->
        forall t, In t (signed (since w w')) ->
        time_Sub (NotAfter t) (NotBefore t) = validFor)
  /\ validFor = 375 * (24 * (3600 * 1000000000)).
Proof.
  split; [|split; [|split]].
  - intros d w t w'. rewrite newCertificate_run.
    destruct (16 <=? length (entropy w))%nat; [|discriminate].
    intros [= <- _]. split; [apply validity_templateAt|]. split; reflexivity.
  - intros d w Hlen. rewrite newCertificate_run.
    apply Nat.leb_le in Hlen. rewrite Hlen. eauto.
  - intros host w r w' H t.
    destruct (GeneratePKI_requests _ _ _ _ H)
      as (w0 & leaf & tail & _ & -> & (Hquiet & _) & Hleaf & _).
    cbn [signed]. rewrite !signed_app, Hquiet, app_nil_r.
    rewrite signed_caEvents. intros Hin. apply in_app_or in Hin.
    destruct Hin as [Hin|Hin].
    + destruct (reaches w0); in_cases Hin. subst t. apply validity_caTemplate.
    + destruct Hleaf as [->|(ca & caKey & w1 & ->)]; [destruct Hin|].
      rewrite signed_leafEvents in Hin.
      destruct (reaches w1); in_cases Hin. subst t. apply validity_leafTemplate.
  - reflexivity.
Qed.

(** C8, as the specification has it, fails: where a key file is already
    there with wider permission bits, [savePrivateKey] persists the key in
    it and the file keeps those bits. *)
Lemma savePrivateKey_keeps_mode_of_existing_file :
  let '(r, w') := savePrivateKey Demo.leafKey Demo.keyFile Demo.staleKey in
  r = Ret None
  /\ mode <$> files Demo.staleKey !! Demo.keyFile = Some (perm3 6 4 4)
  /\ files w' !! Demo.keyFile
     = Some (mkFile (perm3 6 4 4) (keyPem Demo.leafKey))
  /\ perm3 6 4 4 <> perm3 6 0 0
  /\ Z.land (perm3 6 4 4) (perm3 0 7 7) <> 0.
Proof.
  vm_compute. repeat split; discriminate.
Qed.

(** C8, amended: [savePrivateKey] opens the key file once, for writing,
    with O_CREATE and O_TRUNC and permission bits 0600, which give neither
    group nor others any access; when it persists the key in a file that
    was not there before, the file has mode 0600. [GeneratePKI] asks for
    its directory once, with mode 0700, and a directory that was not there
    before has mode 0700 afterwards. *)
Theorem savePrivateKey_creates_0600_GeneratePKI_creates_0700 :
  (forall key keyFile w r w',
     savePrivateKey key keyFile w = (r, w') ->
     opens (since w w')
     = [(keyFile, Z.lor O_WRONLY (Z.lor O_CREATE O_TRUNC), perm3 6 0 0)]
     /\ (r = Ret None ->
         files w !! keyFile = None ->
         mode <$> files w' !! keyFile = Some (perm3 6 0 0)))
  /\ Z.land (perm3 6 0 0) (perm3 0 7 7) = 0
  /\ (forall host w r w',
        GeneratePKI lib host w = (r, w') ->
        mkdirs (since w w') = [(certsDir lib, perm3 7 0 0)]
        /\ (dirs w !! certsDir lib = None ->
            dirs w' !! certsDir lib = Some (perm3 7 0 0))).
Proof.
  split; [|split; [reflexivity|]].
  - intros key keyFile w r w' H.
    rewrite (since_app _ _ _ (savePrivateKey_trace _ _ _ _ _ H)).
    rewrite savePrivateKey_run in H. unfold keyEvents, keyOpen.
    destruct (openErr w keyFile); injection H as <- <-.
    + split; [reflexivity|discriminate].
    + split; [reflexivity|]. intros _ Hnew.
      rewrite files_keyWritten, Hnew. reflexivity.
  - intros host w r w' H.
    destruct (GeneratePKI_requests _ _ _ _ H)
      as (w0 & leaf & tail & -> & -> & (_ & _ & _ & Hquiet) & Hleaf & Hdirs).
    split.
    + cbn [mkdirs]. rewrite !mkdirs_app, Hquiet, mkdirs_caEvents.
      destruct Hleaf as [->|(ca & caKey & w1 & ->)];
        [|rewrite mkdirs_leafEvents]; reflexivity.
    + intros Hnew. rewrite Hdirs. unfold madeDir.
      change (dirs (logged _ w)) with (dirs w). rewrite Hnew.
      cbn [dirs set_dirs]. apply lookup_insert_eq.
Qed.

End Orchestration.

(** ** What the steps leave of the sources *)

Lemma writeErr_certWritten name derBytes w :
  writeErr (certWritten name derBytes w) = writeErr w.
Proof.
  unfold certWritten.
  now rewrite writeErr_logged, writeErr_appended, writeErr_logged,
    writeErr_truncated, writeErr_logged.
Qed.

Lemma sources_appended f b w :
  clock (appended f b w) = clock w
  /\ ticks (appended f b w) = ticks w
  /\ entropy (appended f b w) = entropy w
  /\ keygen (appended f b w) = keygen w
  /\ execErr (appended f b w) = execErr w.
Proof.
  unfold appended. destruct (writeErr w f), (files w !! f); auto.
Qed.

Lemma sources_certWritten name derBytes w :
  clock (certWritten name derBytes w) = clock w
  /\ ticks (certWritten name derBytes w) = ticks w
  /\ entropy (certWritten name derBytes w) = entropy w
  /\ keygen (certWritten name derBytes w) = keygen w
  /\ execErr (certWritten name derBytes w) = execErr w.
Proof.
  unfold certWritten. cbn [logged set_trace clock ticks entropy keygen execErr].
  apply (sources_appended name (certPem derBytes)
           (logged (EvWrite name (certPem derBytes))
              (truncated name (perm3 6 6 6) (logged (certOpen name) w)))).
Qed.

Lemma sources_keyWritten key keyFile w :
  execErr (keyWritten key keyFile w) = execErr w.
Proof.
  unfold keyWritten. cbn [logged set_trace execErr].
  apply (sources_appended keyFile (keyPem key)
           (logged (EvWrite keyFile (keyPem key))
              (truncated keyFile (perm3 6 0 0) (logged (keyOpen keyFile) w)))).
Qed.

Lemma sources_madeDir path perm w :
  clock (madeDir path perm w) = clock w
  /\ ticks (madeDir path perm w) = ticks w
  /\ entropy (madeDir path perm w) = entropy w
  /\ keygen (madeDir path perm w) = keygen w
  /\ openErr (madeDir path perm w) = openErr w
  /\ execErr (madeDir path perm w) = execErr w.
Proof.
  unfold madeDir. destruct (dirs w !! path); auto 10.
Qed.

(** The template depends on the clock and the random source only. *)
Lemma templateAt_sources d w1 w2 :
  clock w1 = clock w2 -> ticks w1 = ticks w2 -> entropy w1 = entropy w2 ->
  templateAt d w1 = templateAt d w2.
Proof.
  intros Hc Ht He. unfold templateAt, nextSerial. now rewrite Hc, Ht, He.
Qed.

Lemma files_madeDir path perm w : files (madeDir path perm w) = files w.
Proof. unfold madeDir. destruct (dirs w !! path); reflexivity. Qed.

Lemma writeErr_madeDir path perm w :
  writeErr (madeDir path perm w) = writeErr w.
Proof. unfold madeDir. destruct (dirs w !! path); reflexivity. Qed.

Section Artifacts.

Variable lib : Library.

Lemma only_files_outside paths w w' p :
  only_files paths w w' -> ~ In p paths -> files w' !! p = files w !! p.
Proof. intros (_ & _ & _ & _ & H & _). apply H. Qed.

Lemma only_files_is_Some paths w w' p :
  only_files paths w w' -> is_Some (files w !! p) -> is_Some (files w' !! p).
Proof. intros (_ & _ & _ & _ & _ & H). apply H. Qed.

(** C4, as the specification has it, fails: a run of [GeneratePKI] that
    succeeds on an empty disk leaves no file ca.pem, server.crt or
    server.key in its directory. *)
Lemma GeneratePKI_writes_no_ca_pem :
  let '(r, w') := GeneratePKI Demo.lib "example.org" Demo.world in
  let dir := AssetPath Demo.lib "certs" in
  r = Ret tt
  /\ files w' !! (dir +:+ "/ca.pem") = None
  /\ files w' !! (dir +:+ "/server.crt") = None
  /\ files w' !! (dir +:+ "/server.key") = None
  /\ fst <$> writes (trace w')
     = [dir +:+ "/zarf-ca.pem"; dir +:+ "/zarf-server.crt";
        dir +:+ "/zarf-server.key"].
Proof.
  vm_compute. repeat split; reflexivity.
Qed.

(** C4, amended: in every run of [GeneratePKI] that returns, the CA was
    created by [generateCA] and the leaf by [generateCert] from the first
    two generated keys, and exactly three writes were requested, in this
    order: the PEM block CERTIFICATE of the CA to the path joined from the
    directory and zarf-ca.pem, the PEM block CERTIFICATE of the leaf
    signed with the CA's key to the path joined from the directory and
    zarf-server.crt, the PEM block RSA PRIVATE KEY of the leaf's key to
    the path joined from the directory and zarf-server.key. The three
    files exist afterwards. The three paths being distinct, the CA file
    holds its block, and the leaf's certificate file and key file hold
    theirs provided the write to them did not fail: [GeneratePKI] also
    returns when it did (C1). Each path
    is [filepath.Join] of the directory and the name, that is, for a
    directory that is not the empty string, the cleaned concatenation of
    the directory, a separator and the name. *)
Theorem GeneratePKI_writes_zarf_files host w w' :
  GeneratePKI lib host w = (Ret tt, w') ->
  exists ca caKey leafKey caDer leafDer w1,
    writes (since w w')
    = [(caFile lib, certPem caDer);
       (hostCert lib, certPem leafDer);
       (hostKey lib, keyPem leafKey)]
    /\ x509_ParseCertificate lib caDer = OkR ca
    /\ x509_encode lib (leafTemplate lib host validFor w1) ca
                   (Public leafKey) caKey = OkR leafDer
    /\ is_Some (files w' !! caFile lib)
    /\ is_Some (files w' !! hostCert lib)
    /\ is_Some (files w' !! hostKey lib)
    /\ (caFile lib <> hostCert lib -> caFile lib <> hostKey lib ->
        content <$> files w' !! caFile lib = Some (certPem caDer))
    /\ caFile lib = filepath_Join lib [AssetPath lib "certs"; "zarf-ca.pem"]
    /\ hostCert lib = filepath_Join lib [AssetPath lib "certs"; "zarf-server.crt"]
    /\ hostKey lib = filepath_Join lib [AssetPath lib "certs"; "zarf-server.key"]
    /\ (AssetPath lib "certs" <> EmptyString ->
        caFile lib
        = filepath_Clean lib (AssetPath lib "certs" +:+ "/" +:+ "zarf-ca.pem")
        /\ hostCert lib
           = filepath_Clean lib (AssetPath lib "certs" +:+ "/" +:+ "zarf-server.crt")
        /\ hostKey lib
           = filepath_Clean lib (AssetPath lib "certs" +:+ "/" +:+ "zarf-server.key"))
    /\ generateCA lib (caFile lib) validFor
         (madeDir (certsDir lib) (perm3 7 0 0)
            (logged (EvMkdir (certsDir lib) (perm3 7 0 0)) w))
       = (Ret (OkR (ca, caKey)), w1)
    /\ generateCert lib host (hostCert lib) (hostKey lib) ca caKey validFor w1
       = (Ret None, snd (generateCert lib host (hostCert lib) (hostKey lib)
                           ca caKey validFor w1))
    /\ (exists rest, keygen w = OkR caKey :: OkR leafKey :: rest)
    /\ x509_encode lib (caTemplate validFor w) (caTemplate validFor w)
                   (Public caKey) caKey = OkR caDer
    /\ openErr w (caFile lib) = None
    /\ writeErr w (caFile lib) = None
    /\ openErr w (hostCert lib) = None
    /\ openErr w (hostKey lib) = None
    /\ (hostCert lib <> hostKey lib -> writeErr w (hostCert lib) = None ->
        content <$> files w' !! hostCert lib = Some (certPem leafDer))
    /\ (writeErr w (hostKey lib) = None ->
        content <$> files w' !! hostKey lib = Some (keyPem leafKey)).
Proof.
  intros H. pose proof (GeneratePKI_stages _ _ _ _ _ H) as Hst.
  destruct Hst as (r1 & w1 & Hca & [[_ Hne]|Hst]); [now destruct Hne|].
  destruct Hst as (ca & caKey & r2 & w2 & -> & Hleaf & [[_ Hne]|[-> Hpush]]);
    [now destruct Hne|].
  destruct (sources_madeDir (certsDir lib) (perm3 7 0 0)
              (logged (EvMkdir (certsDir lib) (perm3 7 0 0)) w))
    as (Hc0 & Ht0 & He0 & Hk0 & Ho0 & _).
  pose proof (writeErr_madeDir (certsDir lib) (perm3 7 0 0)
                (logged (EvMkdir (certsDir lib) (perm3 7 0 0)) w)) as Hwe0.
  set (w0 := madeDir _ _ _) in *.
  cbn [logged set_trace clock ticks entropy keygen openErr writeErr]
    in Hc0, Ht0, He0, Hk0, Ho0, Hwe0.
  pose proof (generateCA_trace _ _ _ _ _ _ Hca) as Htca.
  pose proof (generateCert_trace _ _ _ _ _ _ _ _ _ _ Hleaf) as Htleaf.
  pose proof (generateCert_frame _ _ _ _ _ _ _ _ _ _ Hleaf) as Hfleaf.
  destruct (generateCA_frame _ _ _ _ _ _ Hca) as (_ & Ho1 & Hwe1 & _).
  destruct (pushed_spec _ _ _ _ _ Hpush)
    as (Hfpush & tail & Httail & (_ & Hquiet & _)).
  destruct (generateCA_success _ _ _ _ _ _ _ Hca)
    as (rest & caDer & Hlen & Hkey & Hder & Hparse & Hopen & Hwrite & Hw1).
  destruct (generateCert_success _ _ _ _ _ _ _ _ _ Hleaf)
    as (leafKey & rest' & leafDer & Hlen' & Hkey' & Hder' & Hopen1 & Hopen2 & Hw2).
  assert (HcaT : caTemplate validFor w0 = caTemplate validFor w).
  { unfold caTemplate. now rewrite (templateAt_sources validFor w0 w). }
  exists ca, caKey, leafKey, caDer, leafDer, w1.
  assert (Hsince : since w w'
                   = EvMkdir (certsDir lib) (perm3 7 0 0)
                     :: caEvents lib (caFile lib) validFor w0
                     ++ leafEvents lib host (hostCert lib) (hostKey lib) ca caKey
                          validFor w1
                     ++ tail).
  { apply since_app. rewrite Httail, Htleaf, Htca. unfold w0.
    rewrite trace_madeDir, trace_logged, <- !app_assoc. reflexivity. }
  assert (HcaFile : files w1 !! caFile lib
                    = Some (mkFile match files w0 !! caFile lib with
                                   | Some f => mode f
                                   | None => perm3 6 6 6
                                   end (certPem caDer))).
  { rewrite Hw1, files_certWritten, writeErr_logged.
    change (writeErr (set_keygen rest (afterTemplate w0))) with (writeErr w0).
    now rewrite Hwrite. }
  split; [|split; [exact Hparse|split; [exact Hder'|]]].
  { rewrite Hsince. cbn [writes]. rewrite !writes_app, Hquiet, app_nil_r.
    unfold caEvents, leafEvents, templateEvents, keyEvents.
    rewrite Hlen, Hkey, Hlen', Hkey'. cbv zeta.
    rewrite Hder, Hparse, Hopen, Hder', Hopen1, Hopen2. reflexivity. }
  split; [|split; [|split; [|split; [|split; [|split; [|split]]]]]].
  - eapply only_files_is_Some; [exact Hfpush|].
    eapply only_files_is_Some; [exact Hfleaf|].
    rewrite HcaFile. eauto.
  - eapply only_files_is_Some; [exact Hfpush|].
    rewrite Hw2.
    eapply only_files_is_Some; [apply only_files_keyWritten|].
    rewrite files_certWritten. eauto.
  - eapply only_files_is_Some; [exact Hfpush|].
    rewrite Hw2, files_keyWritten. eauto.
  - intros Hne1 Hne2.
    rewrite (only_files_outside _ _ _ _ Hfpush) by (intros []).
    rewrite (only_files_outside _ _ _ _ Hfleaf)
      by (intros Hin; in_cases Hin; congruence).
    rewrite HcaFile. reflexivity.
  - reflexivity.
  - reflexivity.
  - reflexivity.
  - split; [|split; [exact Hca|split; [|split; [|split; [|split; [|split]]]]]].
    + intros Hdir. unfold caFile, hostCert, hostKey, certsDir.
      rewrite !filepath_Join_two by exact Hdir. auto.
    + rewrite Hleaf. reflexivity.
    + exists rest'. rewrite <- Hk0, Hkey. f_equal.
      rewrite <- Hkey', Hw1.
      destruct (sources_certWritten (caFile lib) caDer
                  (logged (EvSign (caTemplate validFor w0)
                                  (caTemplate validFor w0)
                                  (Public caKey) caKey)
                          (set_keygen rest (afterTemplate w0))))
        as (_ & _ & _ & Hk1 & _).
      rewrite Hk1. reflexivity.
    + rewrite <- HcaT. exact Hder.
    + rewrite <- Ho0. exact Hopen.
    + rewrite <- Hwe0. exact Hwrite.
    + split; [rewrite <- Ho0, <- Ho1; exact Hopen1|].
      split; [rewrite <- Ho0, <- Ho1; exact Hopen2|].
      split.
      * intros Hne Hwc.
        rewrite (only_files_outside _ _ _ _ Hfpush) by (intros []).
        rewrite Hw2.
        rewrite (only_files_outside _ _ _ _
                   (only_files_keyWritten leafKey (hostKey lib) _))
          by (intros Hin; in_cases Hin; congruence).
        rewrite files_certWritten, writeErr_logged.
        change (writeErr (set_keygen rest' (afterTemplate w1)))
          with (writeErr w1).
        rewrite Hwe1, Hwe0, Hwc. reflexivity.
      * intros Hwk.
        rewrite (only_files_outside _ _ _ _ Hfpush) by (intros []).
        rewrite Hw2, files_keyWritten, writeErr_certWritten, writeErr_logged.
        change (writeErr (set_keygen rest' (afterTemplate w1)))
          with (writeErr w1).
        rewrite Hwe1, Hwe0, Hwk. reflexivity.
Qed.

End Artifacts.

(** ** The CA certificate and the leaf template *)

Section Authority.

Variable lib : Library.

(** C7: the template [generateCA] has signed is a CA ([IsCA] set) whose
    key usage is digital signature, key encipherment and certificate
    signing; the template [generateCert] has signed is no CA and its key
    usage is digital signature and key encipherment, without the
    certificate-sign bit. Either operation has its template signed as
    soon as the random source serves the serial number and a key is
    generated. [generateCA] returns a certificate whenever the key is
    generated, the signature is made and parsed and the file is opened and
    written; the certificate it returns is the one parsed from the
    signature of that CA template, whose PEM block the CA file then holds,
    so that, [x509.ParseCertificate] reading back what
    [x509.CreateCertificate] wrote, the returned certificate is a CA with
    that key usage. *)
Theorem generateCA_is_ca_generateCert_is_not
    caFile host certFile keyFile ca caKey validFor w r w' w2 r2 w2' :
  generateCA lib caFile validFor w = (r, w') ->
  generateCert lib host certFile keyFile ca caKey validFor w2 = (r2, w2') ->
  (forall t, In t (signed (since w w')) ->
     IsCA t = true
     /\ KeyUsage t = Z.lor (Z.lor KeyUsageKeyEncipherment KeyUsageDigitalSignature)
                           KeyUsageCertSign
     /\ Z.land (KeyUsage t) KeyUsageCertSign = KeyUsageCertSign
     /\ Z.land (KeyUsage t) KeyUsageDigitalSignature = KeyUsageDigitalSignature
     /\ Z.land (KeyUsage t) KeyUsageKeyEncipherment = KeyUsageKeyEncipherment)
  /\ (forall priv, reaches w = Some priv -> exists t, signed (since w w') = [t])
  /\ (forall t, In t (signed (since w2 w2')) ->
        IsCA t = false
        /\ KeyUsage t = Z.lor KeyUsageKeyEncipherment KeyUsageDigitalSignature
        /\ Z.land (KeyUsage t) KeyUsageCertSign = 0)
  /\ (forall priv, reaches w2 = Some priv ->
        exists t, signed (since w2 w2') = [t])
  /\ (forall cert priv derBytes,
        reaches w = Some priv ->
        x509_encode lib (caTemplate validFor w) (caTemplate validFor w)
                    (Public priv) priv = OkR derBytes ->
        x509_ParseCertificate lib derBytes = OkR cert ->
        openErr w caFile = None ->
        writeErr w caFile = None ->
        r = Ret (OkR (cert, priv)))
  /\ (forall cert priv, r = Ret (OkR (cert, priv)) ->
        exists derBytes,
          signed (since w w') = [caTemplate validFor w]
          /\ x509_encode lib (caTemplate validFor w) (caTemplate validFor w)
                         (Public priv) priv = OkR derBytes
          /\ x509_ParseCertificate lib derBytes = OkR cert
          /\ content <$> files w' !! caFile = Some (certPem derBytes)
          /\ (reads_back lib ->
              IsCA cert = true
              /\ BasicConstraintsValid cert = true
              /\ KeyUsage cert
                 = Z.lor (Z.lor KeyUsageKeyEncipherment KeyUsageDigitalSignature)
                         KeyUsageCertSign
              /\ Z.land (KeyUsage cert) KeyUsageCertSign = KeyUsageCertSign
              /\ Z.land (KeyUsage cert) KeyUsageDigitalSignature
                 = KeyUsageDigitalSignature
              /\ Z.land (KeyUsage cert) KeyUsageKeyEncipherment
                 = KeyUsageKeyEncipherment)).
Proof.
  intros Hca Hleaf.
  pose proof (generateCA_signed _ _ _ _ _ _ Hca) as Hsigned.
  rewrite (generateCert_signed _ _ _ _ _ _ _ _ _ _ Hleaf).
  split; [|split; [|split; [|split; [|split]]]].
  - rewrite Hsigned. destruct (reaches w); intros t [].
    + subst t. cbn. repeat split; reflexivity.
    + contradiction.
  - intros priv Hreach. rewrite Hsigned, Hreach. eauto.
  - destruct (reaches w2); intros t [].
    + subst t. unfold leafTemplate.
      destruct (net_ParseIP lib host); cbn; repeat split; reflexivity.
    + contradiction.
  - intros priv ->. eauto.
  - intros cert priv derBytes Hreach Henc Hparse Hopen Hwrite.
    rewrite generateCA_run in Hca. unfold reaches in Hreach.
    destruct (16 <=? length (entropy w))%nat; [|discriminate].
    destruct (keygen w) as [|[priv'|err] rest]; try discriminate.
    injection Hreach as ->. cbv zeta in Hca.
    rewrite Henc, Hparse, Hopen, Hwrite in Hca. now injection Hca as <- _.
  - intros cert priv ->.
    destruct (generateCA_success _ _ _ _ _ _ _ Hca)
      as (rest & derBytes & Hlen & Hkey & Hder & Hparse & Hopen & Hwrite & Hw').
    exists derBytes.
    split; [|split; [exact Hder|split; [exact Hparse|split]]].
    + rewrite Hsigned. unfold reaches. now rewrite Hlen, Hkey.
    + rewrite Hw', files_certWritten, writeErr_logged.
      change (writeErr (set_keygen rest (afterTemplate w))) with (writeErr w).
      now rewrite Hwrite.
    + intros Hlaw.
      destruct (Hlaw (caTemplate validFor w) (caTemplate validFor w)
                  (Public priv) priv derBytes cert)
        as (HisCA & Hku & Hbc);
        [reflexivity | vm_compute; split; [discriminate|reflexivity]
        | exact Hder | exact Hparse |].
      rewrite HisCA, Hku, Hbc. cbn. repeat split; reflexivity.
Qed.

End Authority.

(** ** Errors of leaf creation *)

Section Errors.

Variable lib : Library.

(** [generateFromTemplate] returns [nil] once the signature is made and
    both files are opened, whatever becomes of the writes. *)
Lemma generateFromTemplate_ignores_write_errors
    certFile keyFile template parent key parentKey derBytes w :
  x509_encode lib template parent (Public key) parentKey = OkR derBytes ->
  openErr w certFile = None ->
  openErr w keyFile = None ->
  fst (generateFromTemplate lib certFile keyFile template parent key parentKey w)
  = Ret None.
Proof.
  intros Hder Hcert Hkey. rewrite generateFromTemplate_run. cbv zeta.
  rewrite Hder, Hcert, savePrivateKey_run, openErr_certWritten, openErr_logged,
    Hkey.
  reflexivity.
Qed.

(** X13: an error that [generateCert] returns is the one of the key
    generation, of the signature or of the opening of one of the two
    files. *)
Lemma generateCert_error_origin host certFile keyFile ca caKey validFor w err w' :
  generateCert lib host certFile keyFile ca caKey validFor w
  = (Ret (Some err), w') ->
  keygen w = []  /\ err = "unexpected EOF"
  \/ (exists rest, keygen w = ErrR err :: rest)
  \/ (exists priv rest,
        keygen w = OkR priv :: rest
        /\ (x509_encode lib (leafTemplate lib host validFor w) ca (Public priv)
                        caKey = ErrR err
            \/ openErr w certFile = Some err
            \/ openErr w keyFile = Some err)).
Proof.
  rewrite generateCert_run.
  destruct (16 <=? length (entropy w))%nat; [|discriminate].
  destruct (keygen w) as [|[priv|err'] rest].
  - intros [= <- _]. now left.
  - rewrite generateFromTemplate_run. cbv zeta.
    change (openErr (set_keygen rest (afterTemplate w))) with (openErr w).
    intros H. right. right. exists priv, rest. split; [reflexivity|].
    destruct (x509_encode lib _ _ _ _) as [derBytes|err'].
    + destruct (openErr w certFile) as [err'|].
      * injection H as <- _. auto.
      * rewrite savePrivateKey_run, openErr_certWritten, openErr_logged in H.
        change (openErr (set_keygen rest (afterTemplate w))) with (openErr w) in H.
        destruct (openErr w keyFile) as [err'|]; [|discriminate].
        injection H as <- _. auto.
    + injection H as <- _. auto.
  - intros [= <- _]. right. left. eauto.
Qed.

(** [generateCA], for its part, returns the error of a failed write. *)
Lemma generateCA_reports_failed_write :
  fst (generateCA Demo.lib Demo.certFile validFor
         (set_keygen [OkR Demo.caKey] Demo.fullDisk))
  = Ret (ErrR "no space left on device").
Proof. vm_compute. reflexivity. Qed.

(** C1 fails on the code: on a disk that takes no byte, [generateCert]
    creates both files, fails to write either PEM block, and returns
    [nil]; both files are empty. *)
Theorem generateCert_returns_nil_after_failed_writes :
  let '(r, w') :=
    generateCert Demo.lib "example.org" Demo.certFile Demo.keyFile
      Demo.ca Demo.caKey validFor Demo.fullDisk in
  r = Ret None
  /\ writeErr Demo.fullDisk Demo.certFile = Some "no space left on device"
  /\ writeErr Demo.fullDisk Demo.keyFile = Some "no space left on device"
  /\ files w' !! Demo.certFile = Some (mkFile (perm3 6 6 6) [])
  /\ files w' !! Demo.keyFile = Some (mkFile (perm3 6 0 0) []).
Proof.
  vm_compute. repeat split; reflexivity.
Qed.

End Errors.

(** * The properties on concrete runs *)

Lemma generateCert_dns_host_witness :
  (forall t, In t (signed (since Demo.issuing (snd Demo.dnsRun))) ->
     DNSNames t = ["example.org"; "localhost"; "*.localhost"]
     /\ IPAddresses t = []
     /\ CommonName (Subject t) = "example.org")
  /\ (forall priv, reaches Demo.issuing = Some priv ->
        exists t, signed (since Demo.issuing (snd Demo.dnsRun)) = [t]).
Proof.
  apply (generateCert_dns_host Demo.lib "example.org" Demo.certFile
           Demo.keyFile Demo.ca Demo.caKey validFor Demo.issuing
           (fst Demo.dnsRun) (snd Demo.dnsRun));
    [reflexivity | apply surjective_pairing].
Defined.

Lemma generateCert_ip_host_witness :
  (forall t, In t (signed (since Demo.issuing (snd Demo.ipRun))) ->
     IPAddresses t = [Demo.v4InV6Prefix ++ [127; 0; 0; 1]] /\ DNSNames t = [])
  /\ (forall priv, reaches Demo.issuing = Some priv ->
        exists t, signed (since Demo.issuing (snd Demo.ipRun)) = [t]).
Proof.
  apply (generateCert_ip_host Demo.lib "127.0.0.1"
           (Demo.v4InV6Prefix ++ [127; 0; 0; 1]) Demo.certFile
           Demo.keyFile Demo.ca Demo.caKey validFor Demo.issuing
           (fst Demo.ipRun) (snd Demo.ipRun));
    [reflexivity | apply surjective_pairing].
Defined.

Lemma generateCert_ip_host_no_common_name_witness :
  (forall t, In t (signed (since Demo.issuing (snd Demo.ipRun))) ->
     CommonName (Subject t) = EmptyString /\ Organization (Subject t) = [org])
  /\ (forall priv, reaches Demo.issuing = Some priv ->
        exists t, signed (since Demo.issuing (snd Demo.ipRun)) = [t]).
Proof.
  apply (generateCert_ip_host_no_common_name Demo.lib "127.0.0.1"
           (Demo.v4InV6Prefix ++ [127; 0; 0; 1]) Demo.certFile
           Demo.keyFile Demo.ca Demo.caKey validFor Demo.issuing
           (fst Demo.ipRun) (snd Demo.ipRun));
    [reflexivity | apply surjective_pairing].
Defined.

(** The stand-in [Demo.roundTrip] reads back what it wrote. *)
Lemma roundTrip_reads_back : reads_back Demo.roundTrip.
Proof.
  intros template parent pub priv derBytes cert Hbc Hku Henc Hparse.
  cbn in Henc. unfold Demo.encodeFull in Henc. injection Henc as <-.
  cbn in Hparse. injection Hparse as <-.
  cbn [IsCA KeyUsage BasicConstraintsValid].
  split; [|split; [|reflexivity]].
  - now destruct (IsCA template).
  - pose proof (Z.div_mod (KeyUsage template) 256). lia.
Qed.

Lemma generateCA_is_ca_generateCert_is_not_witness :
  (exists t, signed (since Demo.world (snd Demo.caRunRoundTrip)) = [t]
             /\ IsCA t = true
             /\ Z.land (KeyUsage t) KeyUsageCertSign = KeyUsageCertSign)
  /\ (exists t, signed (since Demo.issuing (snd Demo.dnsRunRoundTrip)) = [t]
                /\ IsCA t = false
                /\ Z.land (KeyUsage t) KeyUsageCertSign = 0)
  /\ (exists cert, fst Demo.caRunRoundTrip = Ret (OkR (cert, Demo.caKey))
                   /\ IsCA cert = true
                   /\ KeyUsage cert = 37
                   /\ Z.land (KeyUsage cert) KeyUsageCertSign = KeyUsageCertSign).
Proof.
  destruct (generateCA_is_ca_generateCert_is_not Demo.roundTrip Demo.caPath
              "example.org" Demo.certFile Demo.keyFile Demo.ca Demo.caKey
              validFor Demo.world (fst Demo.caRunRoundTrip)
              (snd Demo.caRunRoundTrip)
              Demo.issuing
              (fst Demo.dnsRunRoundTrip) (snd Demo.dnsRunRoundTrip))
    as (Hca & Hcareach & Hleaf & Hleafreach & Hreturns & Hcert);
    [apply surjective_pairing | apply surjective_pairing |].
  split; [|split].
  - destruct (Hcareach Demo.caKey) as (t & Ht); [reflexivity|].
    exists t. split; [exact Ht|].
    destruct (Hca t) as (H1 & _ & H2 & _); [rewrite Ht; now left|]. auto.
  - destruct (Hleafreach Demo.leafKey) as (t & Ht); [reflexivity|].
    exists t. split; [exact Ht|].
    destruct (Hleaf t) as (H1 & _ & H2); [rewrite Ht; now left|]. auto.
  - destruct (Demo.parseFull Demo.caDerRoundTrip) as [cert|err] eqn:Hparse;
      [|discriminate Hparse].
    exists cert.
    assert (Hr : fst Demo.caRunRoundTrip = Ret (OkR (cert, Demo.caKey))).
    { apply (Hreturns cert Demo.caKey Demo.caDerRoundTrip);
        [vm_compute; reflexivity | vm_compute; reflexivity | exact Hparse
        | reflexivity | reflexivity]. }
    split; [exact Hr|].
    destruct (Hcert cert Demo.caKey Hr) as (derBytes & _ & _ & _ & _ & Hlaw).
    destruct (Hlaw roundTrip_reads_back) as (H1 & _ & H2 & H3 & _).
    auto.
Defined.


Lemma GeneratePKI_writes_zarf_files_witness :
  exists caDer leafDer,
    writes (since Demo.world (snd Demo.pkiRun))
    = [("/opt/zarf/certs/zarf-ca.pem", certPem caDer);
       ("/opt/zarf/certs/zarf-server.crt", certPem leafDer);
       ("/opt/zarf/certs/zarf-server.key", keyPem Demo.leafKey)]
    /\ content <$> files (snd Demo.pkiRun) !! "/opt/zarf/certs/zarf-ca.pem"
       = Some (certPem caDer)
    /\ content <$> files (snd Demo.pkiRun) !! "/opt/zarf/certs/zarf-server.crt"
       = Some (certPem leafDer)
    /\ content <$> files (snd Demo.pkiRun) !! "/opt/zarf/certs/zarf-server.key"
       = Some (keyPem Demo.leafKey).
Proof.
  destruct (GeneratePKI_writes_zarf_files Demo.lib "example.org" Demo.world
              (snd Demo.pkiRun))
    as (ca & caKey & leafKey & caDer & leafDer & w1 & Hwrites & _ & _ & _ & _
        & _ & Hca & _ & _ & _ & _ & _ & _ & (rest & Hkeys) & _ & _ & _ & _ & _
        & Hcert & Hkey).
  { assert (Hret : fst Demo.pkiRun = Ret tt) by (vm_compute; reflexivity).
    rewrite <- Hret. apply surjective_pairing. }
  injection Hkeys as _ <- _.
  exists caDer, leafDer.
  split; [exact Hwrites|].
  split; [apply Hca; vm_compute; discriminate|].
  split; [apply Hcert; [vm_compute; discriminate|reflexivity]|].
  apply Hkey. reflexivity.
Defined.

Lemma newCertificate_validity_witness :
  exists t w',
    newCertificate validFor Demo.world = (Ret t, w')
    /\ time_Sub (NotAfter t) (NotBefore t) = validFor
    /\ NotBefore t = clock Demo.world (ticks Demo.world).
Proof.
  destruct (newCertificate_validity Demo.lib) as (Hsub & Hret & _).
  destruct (Hret validFor Demo.world) as (t & w' & Hrun); [vm_compute; lia|].
  exists t, w'. split; [exact Hrun|].
  destruct (Hsub _ _ _ _ Hrun) as (H1 & H2 & _). auto.
Defined.

Lemma savePrivateKey_creates_0600_GeneratePKI_creates_0700_witness :
  mode <$> files (snd Demo.keyRun) !! Demo.keyFile = Some (perm3 6 0 0)
  /\ dirs (snd Demo.pkiRun) !! certsDir Demo.lib = Some (perm3 7 0 0).
Proof.
  destruct (savePrivateKey_creates_0600_GeneratePKI_creates_0700 Demo.lib)
    as (Hkey & _ & Hdir).
  split.
  - destruct (Hkey Demo.leafKey Demo.keyFile Demo.issuing
                (fst Demo.keyRun) (snd Demo.keyRun)) as (_ & Hmode);
      [apply surjective_pairing|].
    apply Hmode; vm_compute; reflexivity.
  - destruct (Hdir "example.org" Demo.world (fst Demo.pkiRun) (snd Demo.pkiRun))
      as (_ & Hmode); [apply surjective_pairing|].
    apply Hmode. vm_compute. reflexivity.
Defined.

(** * Further properties of the code *)

(** ** [RandomString] *)

Lemma RandomString_loop_charFor (bytes : list Z) (w : World) :
  RandomString_loop bytes w = (Ret (charFor <$> bytes), w).
Proof.
  induction bytes as [|b bytes IH]; cbn [RandomString_loop fmap list_fmap].
  - reflexivity.
  - unfold charFor at 1.
    destruct (pick_in_alphabet b) as (c & Hc & _). rewrite Hc.
    unfold bind. rewrite IH. reflexivity.
Qed.

Lemma charFor_range (b : Z) : 0 <= charFor b < 256.
Proof.
  unfold charFor. destruct (pick_in_alphabet b) as (c & Hc & _). rewrite Hc.
  unfold index in Hc.
  destruct (_ <? 0); [discriminate|].
  destruct (String.get _ _) as [a|]; [|discriminate].
  injection Hc as <-. apply byte_of_ascii_range.
Qed.

(** [RandomString], start to end, for a length that [make] accepts. *)
Lemma RandomString_run (n : Z) (w : World) :
  0 <= n ->
  RandomString n w =
  if (Z.to_nat n <=? length (entropy w))%nat
  then (Ret (string_of_bytes
               (charFor <$> (Z_of_byte <$> take (Z.to_nat n) (entropy w)))),
        set_entropy (drop (Z.to_nat n) (entropy w)) w)
  else (Fatal "unable to generate a random secret", set_entropy [] w).
Proof.
  intros Hn. unfold RandomString.
  unfold bind at 1. unfold make_bytes.
  destruct (Z.ltb_spec n 0) as [Hneg|_]; [lia|].
  unfold ret at 1. cbv iota beta. rewrite repeat_length.
  unfold bind at 1.
  destruct (Nat.leb_spec (Z.to_nat n) (length (entropy w))) as [Hle|Hgt].
  - rewrite rand_Read_run by exact Hle. cbv iota beta.
    unfold bind at 1. unfold ret at 1. cbv iota beta.
    unfold bind. rewrite RandomString_loop_charFor. reflexivity.
  - rewrite rand_Read_short by exact Hgt. reflexivity.
Qed.

Lemma string_of_bytes_app (l1 l2 : list Z) :
  string_of_bytes (l1 ++ l2) = string_of_bytes l1 +:+ string_of_bytes l2.
Proof.
  induction l1 as [|b l1 IH]; cbn [string_of_bytes app String.append].
  - reflexivity.
  - now rewrite IH.
Qed.

(** X1: when the secure random source cannot serve the bytes asked for,
    [RandomString] does not return a shorter or weaker string: the process
    exits with the message of [logrus.Fatal]; no file is touched and no
    request is made. *)
Theorem RandomString_exits_when_source_fails (n : Z) (w : World) :
  0 <= n ->
  (length (entropy w) < Z.to_nat n)%nat ->
  exists w',
    RandomString n w = (Fatal "unable to generate a random secret", w')
    /\ files w' = files w
    /\ trace w' = trace w.
Proof.
  intros Hn Hshort. rewrite RandomString_run by exact Hn.
  apply Nat.leb_gt in Hshort. rewrite Hshort.
  eexists. split; [reflexivity|]. split; reflexivity.
Qed.

Lemma RandomString_exits_when_source_fails_witness :
  exists w',
    RandomString 41 Demo.world
    = (Fatal "unable to generate a random secret", w')
    /\ files w' = files Demo.world
    /\ trace w' = trace Demo.world.
Proof.
  apply (RandomString_exits_when_source_fails 41 Demo.world);
    [lia | vm_compute; lia].
Defined.

(** X2: a negative length makes [RandomString] panic in [make], before
    the random source is read. *)
Theorem RandomString_panics_on_negative_length (n : Z) (w : World) :
  n < 0 ->
  exists msg, RandomString n w = (Panic msg, w).
Proof.
  intros Hn. unfold RandomString, bind, make_bytes.
  destruct (Z.ltb_spec n 0) as [_|Hge]; [|lia].
  eexists. reflexivity.
Qed.

Lemma RandomString_panics_on_negative_length_witness :
  exists msg, RandomString (-1) Demo.world = (Panic msg, Demo.world).
Proof.
  apply (RandomString_panics_on_negative_length (-1) Demo.world). lia.
Defined.

(** X3: [RandomString] uses up exactly as many bytes of the random source
    as the string is long, so that two calls in a row return what one call
    for the sum of the lengths returns, cut in two. *)
Theorem RandomString_twice (n m : Z) (w w1 w2 : World) (s1 s2 : string) :
  0 <= n -> 0 <= m ->
  RandomString n w = (Ret s1, w1) ->
  RandomString m w1 = (Ret s2, w2) ->
  RandomString (n + m) w = (Ret (s1 +:+ s2), w2)
  /\ entropy w2 = drop (Z.to_nat (n + m)) (entropy w).
Proof.
  intros Hn Hm. rewrite !RandomString_run by lia.
  destruct (Nat.leb_spec (Z.to_nat n) (length (entropy w))) as [Hle|_];
    [|discriminate].
  intros [= <- <-]. cbn [entropy set_entropy].
  destruct (Nat.leb_spec (Z.to_nat m) (length (drop (Z.to_nat n) (entropy w))))
    as [Hle'|_]; [|discriminate].
  intros [= <- <-]. rewrite length_drop in Hle'.
  destruct (Nat.leb_spec (Z.to_nat (n + m)) (length (entropy w))) as [_|Hgt];
    [|lia].
  rewrite Z2Nat.inj_add by lia.
  rewrite <- string_of_bytes_app, <- !fmap_app, <- take_take_drop, drop_drop.
  split; reflexivity.
Qed.

Lemma RandomString_twice_witness :
  exists s1 s2 w2,
    RandomString (8 + 12) Demo.world = (Ret (s1 +:+ s2), w2)
    /\ len s1 = 8 /\ len s2 = 12
    /\ entropy w2 = drop (Z.to_nat (8 + 12)) (entropy Demo.world).
Proof.
  eexists _, _, _.
  assert (H1 : RandomString 8 Demo.world
               = (fst (RandomString 8 Demo.world),
                  snd (RandomString 8 Demo.world)))
    by apply surjective_pairing.
  assert (Hs1 : fst (RandomString 8 Demo.world) = Ret "00Y-0jZ0")
    by (vm_compute; reflexivity).
  rewrite Hs1 in H1.
  assert (H2 : RandomString 12 (snd (RandomString 8 Demo.world))
               = (fst (RandomString 12 (snd (RandomString 8 Demo.world))),
                  snd (RandomString 12 (snd (RandomString 8 Demo.world)))))
    by apply surjective_pairing.
  assert (Hs2 : fst (RandomString 12 (snd (RandomString 8 Demo.world)))
                = Ret "5nYhwGAg9mJc")
    by (vm_compute; reflexivity).
  rewrite Hs2 in H2.
  destruct (RandomString_twice 8 12 Demo.world _ _ _ _
              ltac:(lia) ltac:(lia) H1 H2) as (Hrun & Hent).
  split; [exact Hrun|]. split; [reflexivity|]. split; [reflexivity|exact Hent].
Defined.

Lemma get_Some_lt (s : string) (n : nat) (a : ascii) :
  String.get n s = Some a -> (n < String.length s)%nat.
Proof.
  revert n. induction s as [|a0 s IH]; intros [|n]; cbn; try discriminate;
    try lia.
  intros H. apply IH in H. lia.
Qed.

(** X4: the draw of [RandomString] is biased as the modulo makes it: the
    65 characters of the alphabet are pairwise distinct, and of the 256
    values of a byte exactly 4 give each of the first 61 characters and
    exactly 3 give each of the last 4. *)
Theorem RandomString_modulo_bias :
  NoDup (bytes_of_string randomStringChars)
  /\ forall i c,
       index randomStringChars i = Some c ->
       weight c = if i <? 61 then 4%nat else 3%nat.
Proof.
  split.
  - apply (bool_decide_unpack _). vm_compute. reflexivity.
  - intros i c Hc.
    assert (Hi : 0 <= i < 65).
    { unfold index in Hc. destruct (Z.ltb_spec i 0) as [|Hi]; [discriminate|].
      split; [exact Hi|].
      destruct (String.get (Z.to_nat i) randomStringChars) eqn:Hget;
        [|discriminate].
      apply get_Some_lt in Hget.
      change (String.length randomStringChars) with 65%nat in Hget. lia. }
    assert (Hall : forallb
                     (fun k =>
                        match index randomStringChars (Z.of_nat k) with
                        | Some c' =>
                            Nat.eqb (weight c')
                                    (if Z.of_nat k <? 61 then 4%nat else 3%nat)
                        | None => false
                        end) (seq 0 65) = true)
      by (vm_compute; reflexivity).
    rewrite forallb_forall in Hall.
    specialize (Hall (Z.to_nat i)).
    rewrite Z2Nat.id, Hc in Hall by lia.
    apply Nat.eqb_eq, Hall, in_seq. lia.
Qed.

Lemma RandomString_modulo_bias_witness :
  weight (byte_of_ascii "-") = 3%nat /\ weight (byte_of_ascii "0") = 4%nat.
Proof.
  destruct RandomString_modulo_bias as (_ & Hweight).
  split.
  - apply (Hweight 64). vm_compute. reflexivity.
  - apply (Hweight 0). vm_compute. reflexivity.
Defined.

(** ** [newCertificate] *)

(** X5: the serial number of a template that [newCertificate] returns is
    the big-endian number of the next 16 bytes of the random source, a
    number from 0 to 2^128 - 1; building the template costs those 16 bytes
    and one reading of the clock, and touches neither files nor
    requests. *)
Theorem newCertificate_serial_number (d : Z) (w : World) (t : Certificate)
    (w' : World) :
  newCertificate d w = (Ret t, w') ->
  SerialNumber t = SetBytes (Z_of_byte <$> take 16 (entropy w))
  /\ 0 <= SerialNumber t < 2 ^ 128
  /\ (16 <= length (entropy w))%nat
  /\ entropy w' = drop 16 (entropy w)
  /\ ticks w' = S (ticks w)
  /\ files w' = files w
  /\ trace w' = trace w.
Proof.
  rewrite newCertificate_run.
  destruct (Nat.leb_spec 16 (length (entropy w))) as [Hlen|_]; [|discriminate].
  intros [= <- <-]. split; [reflexivity|]. split.
  - cbn [SerialNumber templateAt]. unfold nextSerial.
    pose proof (SetBytes_bound _ (read_bytes_range 16 (entropy w))) as Hb.
    rewrite length_fmap, length_take in Hb.
    replace (Z.of_nat (16 `min` length (entropy w))) with 16 in Hb by lia.
    change (256 ^ 16) with (2 ^ 128) in Hb. exact Hb.
  - repeat split. exact Hlen.
Qed.

Lemma newCertificate_serial_number_witness :
  SerialNumber (templateAt validFor Demo.world)
  = SetBytes (Z_of_byte <$> take 16 (entropy Demo.world))
  /\ 0 <= SerialNumber (templateAt validFor Demo.world) < 2 ^ 128.
Proof.
  destruct (newCertificate_serial_number validFor Demo.world
              (templateAt validFor Demo.world) (afterTemplate Demo.world))
    as (H1 & H2 & _); [rewrite newCertificate_run; reflexivity|].
  split; [exact H1|exact H2].
Defined.

(** X6: when the random source has fewer than 16 bytes left,
    [newCertificate] returns no template: the process exits, with files
    and requests as they were. *)
Theorem newCertificate_exits_without_serial (d : Z) (w : World) :
  (length (entropy w) < 16)%nat ->
  exists msg w',
    newCertificate d w = (Fatal msg, w')
    /\ files w' = files w
    /\ trace w' = trace w.
Proof.
  intros Hshort. rewrite newCertificate_run.
  apply Nat.leb_gt in Hshort. rewrite Hshort.
  do 2 eexists. split; [reflexivity|]. split; reflexivity.
Qed.

Lemma newCertificate_exits_without_serial_witness :
  exists msg w',
    newCertificate validFor (set_entropy [] Demo.world) = (Fatal msg, w')
    /\ files w' = files (set_entropy [] Demo.world)
    /\ trace w' = trace (set_entropy [] Demo.world).
Proof.
  apply (newCertificate_exits_without_serial validFor
           (set_entropy [] Demo.world)).
  vm_compute. lia.
Defined.

(** ** [savePrivateKey] *)

(** X7: when the key file can be opened and written to, [savePrivateKey]
    returns [nil] and the file then holds the PEM block RSA PRIVATE KEY
    of the key and nothing of what it held before; no other file is
    changed. *)
Theorem savePrivateKey_replaces_content (key : PrivateKey) (keyFile : string)
    (w : World) :
  openErr w keyFile = None ->
  writeErr w keyFile = None ->
  exists w',
    savePrivateKey key keyFile w = (Ret None, w')
    /\ content <$> files w' !! keyFile = Some (keyPem key)
    /\ (forall p, p <> keyFile -> files w' !! p = files w !! p).
Proof.
  intros Hopen Hwrite. rewrite savePrivateKey_run, Hopen.
  eexists. split; [reflexivity|]. split.
  - rewrite files_keyWritten, Hwrite. reflexivity.
  - intros p Hp.
    apply (only_files_outside [keyFile]); [apply only_files_keyWritten|].
    intros Hin. in_cases Hin. congruence.
Qed.

Lemma savePrivateKey_replaces_content_witness :
  exists w',
    savePrivateKey Demo.leafKey Demo.keyFile Demo.staleKey = (Ret None, w')
    /\ content <$> files w' !! Demo.keyFile = Some (keyPem Demo.leafKey)
    /\ (forall p, p <> Demo.keyFile ->
          files w' !! p = files Demo.staleKey !! p).
Proof.
  apply (savePrivateKey_replaces_content Demo.leafKey Demo.keyFile
           Demo.staleKey); reflexivity.
Defined.

(** X8: when the key file cannot be opened, [savePrivateKey] returns the
    error of the opening and leaves every file as it was. *)
Theorem savePrivateKey_open_error (key : PrivateKey) (keyFile : string)
    (w : World) (err : error) :
  openErr w keyFile = Some err ->
  exists w',
    savePrivateKey key keyFile w = (Ret (Some err), w')
    /\ files w' = files w
    /\ writes (since w w') = [].
Proof.
  intros Hopen. rewrite savePrivateKey_run, Hopen.
  eexists. split; [reflexivity|]. split; [reflexivity|].
  rewrite (since_app _ _ [keyOpen keyFile]); reflexivity.
Qed.

Lemma savePrivateKey_open_error_witness :
  exists w',
    savePrivateKey Demo.leafKey Demo.keyFile Demo.readOnly
    = (Ret (Some "permission denied"), w')
    /\ files w' = files Demo.readOnly
    /\ writes (since Demo.readOnly w') = [].
Proof.
  apply (savePrivateKey_open_error Demo.leafKey Demo.keyFile Demo.readOnly).
  reflexivity.
Defined.

(** ** [generateCA] and [generateCert] *)

(** X9: an error that [generateCA] returns leaves the disk in one of
    three states. Either nothing was opened and every file is as it was
    (the key generation, the signature or the parse failed); or the error
    is that of opening [caFile], and every file is as it was; or [caFile]
    was opened and the error is that of writing to it: the file is left
    behind, whatever the failed write has put into it, and every other
    file is as it was. *)
Theorem generateCA_error_cases (lib : Library) (caFile : string) (d : Z)
    (w : World) (err : error) (w' : World) :
  generateCA lib caFile d w = (Ret (ErrR err), w') ->
  (opens (since w w') = [] /\ files w' = files w)
  \/ (openErr w caFile = Some err /\ files w' = files w)
  \/ (openErr w caFile = None
      /\ writeErr w caFile = Some err
      /\ is_Some (files w' !! caFile)
      /\ (forall p, p <> caFile -> files w' !! p = files w !! p)).
Proof.
  intros H.
  destruct (generateCA_frame _ _ _ _ _ _ H) as (_ & _ & _ & _ & Hframe & _).
  rewrite (since_app _ _ _ (generateCA_trace _ _ _ _ _ _ H)).
  rewrite generateCA_run in H. unfold caEvents. revert H.
  destruct (16 <=? length (entropy w))%nat; [|discriminate].
  destruct (keygen w) as [|[priv|err'] rest];
    [intros [= _ <-]; left; split; reflexivity
    | |intros [= _ <-]; left; split; reflexivity].
  cbv zeta.
  destruct (x509_encode lib _ _ _ _) as [derBytes|err'];
    [|intros [= _ <-]; left; split; reflexivity].
  destruct (x509_ParseCertificate lib derBytes) as [ca|err'];
    [|intros [= _ <-]; left; split; reflexivity].
  destruct (openErr w caFile) as [err'|] eqn:Hopen.
  { intros [= <- <-]. right. left. split; reflexivity. }
  destruct (writeErr w caFile) as [err'|] eqn:Hwrite; [|discriminate].
  intros [= <- <-]. right. right. split; [reflexivity|]. split; [reflexivity|].
  split.
  - rewrite files_certWritten. eauto.
  - intros p Hp. apply Hframe. intros [<-|[]]. now apply Hp.
Qed.

Lemma generateCA_error_cases_witness :
  files (set_keygen [OkR Demo.caKey] Demo.fullDisk) !! Demo.caPath = None
  /\ is_Some (files (snd (generateCA Demo.lib Demo.caPath validFor
                            (set_keygen [OkR Demo.caKey] Demo.fullDisk)))
              !! Demo.caPath).
Proof.
  split; [reflexivity|].
  destruct (generateCA_error_cases Demo.lib Demo.caPath validFor
              (set_keygen [OkR Demo.caKey] Demo.fullDisk)
              "no space left on device"
              (snd (generateCA Demo.lib Demo.caPath validFor
                      (set_keygen [OkR Demo.caKey] Demo.fullDisk))))
    as [[Hopens _]|[[Hopen _]|(_ & _ & Hfile & _)]].
  - assert (Hret : fst (generateCA Demo.lib Demo.caPath validFor
                          (set_keygen [OkR Demo.caKey] Demo.fullDisk))
                   = Ret (ErrR "no space left on device"))
      by (vm_compute; reflexivity).
    rewrite <- Hret. apply surjective_pairing.
  - vm_compute in Hopens. discriminate Hopens.
  - vm_compute in Hopen. discriminate Hopen.
  - exact Hfile.
Defined.

(** X10: when the signature of the leaf fails, [generateCert] returns the
    error of [x509.CreateCertificate]; it has opened no file, written
    nothing, and every file is as it was. *)
Theorem generateCert_sign_error (lib : Library) (host certFile keyFile : string)
    (ca : Certificate) (caKey : PrivateKey) (d : Z) (w : World)
    (priv : PrivateKey) (err : error) :
  reaches w = Some priv ->
  x509_encode lib (leafTemplate lib host d w) ca (Public priv) caKey = ErrR err ->
  exists w',
    generateCert lib host certFile keyFile ca caKey d w = (Ret (Some err), w')
    /\ files w' = files w
    /\ opens (since w w') = []
    /\ writes (since w w') = [].
Proof.
  unfold reaches. intros Hreach Hder. rewrite generateCert_run.
  destruct (16 <=? length (entropy w))%nat; [|discriminate].
  destruct (keygen w) as [|[priv'|err'] rest]; try discriminate.
  injection Hreach as ->.
  rewrite generateFromTemplate_run. cbv zeta. rewrite Hder.
  eexists. split; [reflexivity|]. split; [reflexivity|].
  rewrite (since_app _ _ [EvSign (leafTemplate lib host d w) ca (Public priv) caKey])
    by reflexivity.
  split; reflexivity.
Qed.

Lemma generateCert_sign_error_witness :
  exists w',
    generateCert Demo.unsigning "example.org" Demo.certFile Demo.keyFile
      Demo.ca Demo.caKey validFor Demo.issuing
    = (Ret (Some "x509: unsupported public key type"), w')
    /\ files w' = files Demo.issuing
    /\ opens (since Demo.issuing w') = []
    /\ writes (since Demo.issuing w') = [].
Proof.
  apply (generateCert_sign_error Demo.unsigning "example.org" Demo.certFile
           Demo.keyFile Demo.ca Demo.caKey validFor Demo.issuing Demo.leafKey);
    reflexivity.
Defined.

(** X11: when the certificate file is written but the key file cannot be
    opened, [generateCert] returns the error of that opening and leaves
    the certificate file behind, holding the PEM block of the leaf; the
    key file is as it was. *)
Theorem generateCert_key_open_error_leaves_certificate (lib : Library)
    (host certFile keyFile : string) (ca : Certificate) (caKey : PrivateKey)
    (d : Z) (w : World) (priv : PrivateKey) (derBytes : list Z) (err : error) :
  reaches w = Some priv ->
  x509_encode lib (leafTemplate lib host d w) ca (Public priv) caKey
  = OkR derBytes ->
  openErr w certFile = None ->
  writeErr w certFile = None ->
  openErr w keyFile = Some err ->
  exists w',
    generateCert lib host certFile keyFile ca caKey d w = (Ret (Some err), w')
    /\ content <$> files w' !! certFile = Some (certPem derBytes)
    /\ files w' !! keyFile = files w !! keyFile.
Proof.
  unfold reaches. intros Hreach Hder Hcert Hwrite Hkey. rewrite generateCert_run.
  destruct (16 <=? length (entropy w))%nat; [|discriminate].
  destruct (keygen w) as [|[priv'|err'] rest]; try discriminate.
  injection Hreach as ->.
  rewrite generateFromTemplate_run. cbv zeta. rewrite Hder.
  change (openErr (set_keygen rest (afterTemplate w))) with (openErr w).
  rewrite Hcert, savePrivateKey_run, openErr_certWritten, openErr_logged.
  change (openErr (set_keygen rest (afterTemplate w))) with (openErr w).
  rewrite Hkey.
  eexists. split; [reflexivity|].
  assert (Hne : keyFile <> certFile) by congruence.
  split.
  - rewrite files_logged, files_certWritten, writeErr_logged.
    change (writeErr (set_keygen rest (afterTemplate w))) with (writeErr w).
    rewrite Hwrite. reflexivity.
  - rewrite files_logged.
    rewrite (only_files_outside [certFile] _ _ keyFile
               (only_files_certWritten _ _ _))
      by (intros Hin; in_cases Hin; congruence).
    reflexivity.
Qed.

Lemma generateCert_key_open_error_leaves_certificate_witness :
  exists w',
    generateCert Demo.lib "example.org" Demo.certFile Demo.keyFile
      Demo.ca Demo.caKey validFor Demo.readOnly
    = (Ret (Some "permission denied"), w')
    /\ content <$> files w' !! Demo.certFile
       = Some (certPem (48 :: 130 :: 16 :: bytes_of_string "example.org"
                        ++ publicPart Demo.leafKey))
    /\ files w' !! Demo.keyFile = files Demo.readOnly !! Demo.keyFile.
Proof.
  apply (generateCert_key_open_error_leaves_certificate Demo.lib "example.org"
           Demo.certFile Demo.keyFile Demo.ca Demo.caKey validFor
           Demo.readOnly Demo.leafKey);
    vm_compute; reflexivity.
Defined.

(** X12: [generateCert] returns [nil] in exactly the runs in which the
    serial number and the key are generated, the signature is made and
    both files are opened; whether the writes go through has no part in
    it. After such a run both files exist, and each of them holds its PEM
    block if the write to it went through. *)
Theorem generateCert_returns_nil_iff (lib : Library)
    (host certFile keyFile : string) (ca : Certificate) (caKey : PrivateKey)
    (d : Z) (w : World) :
  ((exists w', generateCert lib host certFile keyFile ca caKey d w
               = (Ret None, w'))
   <-> (exists priv derBytes,
          reaches w = Some priv
          /\ x509_encode lib (leafTemplate lib host d w) ca (Public priv) caKey
             = OkR derBytes
          /\ openErr w certFile = None
          /\ openErr w keyFile = None))
  /\ (forall w' priv derBytes,
        generateCert lib host certFile keyFile ca caKey d w = (Ret None, w') ->
        reaches w = Some priv ->
        x509_encode lib (leafTemplate lib host d w) ca (Public priv) caKey
        = OkR derBytes ->
        is_Some (files w' !! certFile)
        /\ is_Some (files w' !! keyFile)
        /\ (writeErr w keyFile = None ->
            content <$> files w' !! keyFile = Some (keyPem priv))
        /\ (certFile <> keyFile ->
            writeErr w certFile = None ->
            content <$> files w' !! certFile = Some (certPem derBytes))).
Proof.
  split; [split|].
  - intros (w' & H).
    destruct (generateCert_success _ _ _ _ _ _ _ _ _ H)
      as (priv & rest & derBytes & Hlen & Hkey & Hder & Hopen1 & Hopen2 & _).
    exists priv, derBytes. unfold reaches. rewrite Hlen, Hkey. auto.
  - intros (priv & derBytes & Hreach & Hder & Hopen1 & Hopen2).
    unfold reaches in Hreach. rewrite generateCert_run.
    destruct (16 <=? length (entropy w))%nat; [|discriminate].
    destruct (keygen w) as [|[priv'|err'] rest]; try discriminate.
    injection Hreach as ->.
    rewrite generateFromTemplate_run. cbv zeta. rewrite Hder.
    change (openErr (set_keygen rest (afterTemplate w))) with (openErr w).
    rewrite Hopen1, savePrivateKey_run, openErr_certWritten, openErr_logged.
    change (openErr (set_keygen rest (afterTemplate w))) with (openErr w).
    rewrite Hopen2. eauto.
  - intros w' priv derBytes H Hreach Hder.
    destruct (generateCert_success _ _ _ _ _ _ _ _ _ H)
      as (priv' & rest & derBytes' & Hlen & Hkey & Hder' & _ & _ & ->).
    unfold reaches in Hreach. rewrite Hlen, Hkey in Hreach.
    injection Hreach as ->.
    assert (derBytes' = derBytes) as -> by congruence.
    split; [|split; [|split]].
    + eapply only_files_is_Some; [apply only_files_keyWritten|].
      rewrite files_certWritten. eauto.
    + rewrite files_keyWritten. eauto.
    + intros Hwrite.
      rewrite files_keyWritten, writeErr_certWritten, writeErr_logged.
      change (writeErr (set_keygen rest (afterTemplate w))) with (writeErr w).
      rewrite Hwrite. reflexivity.
    + intros Hne Hwrite.
      rewrite (only_files_outside [keyFile] _ _ certFile
                 (only_files_keyWritten _ _ _))
        by (intros Hin; in_cases Hin; congruence).
      rewrite files_certWritten, writeErr_logged.
      change (writeErr (set_keygen rest (afterTemplate w))) with (writeErr w).
      rewrite Hwrite. reflexivity.
Qed.

Lemma generateCert_returns_nil_iff_witness :
  (exists w', Demo.dnsRun = (Ret None, w'))
  /\ content <$> files (snd Demo.dnsRun) !! Demo.keyFile
     = Some (keyPem Demo.leafKey).
Proof.
  destruct (generateCert_returns_nil_iff Demo.lib "example.org" Demo.certFile
              Demo.keyFile Demo.ca Demo.caKey validFor Demo.issuing)
    as ((_ & Hnil) & Hfiles).
  assert (Hder : x509_encode Demo.lib
                   (leafTemplate Demo.lib "example.org" validFor Demo.issuing)
                   Demo.ca (Public Demo.leafKey) Demo.caKey
                 = OkR (48 :: 130 :: 16 :: bytes_of_string "example.org"
                        ++ publicPart Demo.leafKey))
    by (vm_compute; reflexivity).
  destruct Hnil as (w' & Hrun).
  { exists Demo.leafKey. eexists. split; [reflexivity|].
    split; [exact Hder|]. split; reflexivity. }
  split; [exists w'; exact Hrun|].
  destruct (Hfiles w' Demo.leafKey _ Hrun ltac:(reflexivity) Hder)
    as (_ & _ & Hkey & _).
  unfold Demo.dnsRun. rewrite Hrun. apply Hkey. reflexivity.
Defined.

(** X14: [generateCA] has its template signed as its own parent, with the
    key it has just generated and for the public half of that key;
    [generateCert] has its template signed with the CA certificate as
    parent and the CA key as signing key, for the public half of a key it
    has just generated, and not for the CA's. *)
Theorem signature_requests (lib : Library) :
  (forall caFile d w r w' t p pub k,
     generateCA lib caFile d w = (r, w') ->
     In (t, p, pub, k) (signatures (since w w')) ->
     p = t /\ pub = Public k /\ reaches w = Some k)
  /\ (forall host certFile keyFile ca caKey d w r w' t p pub k,
        generateCert lib host certFile keyFile ca caKey d w = (r, w') ->
        In (t, p, pub, k) (signatures (since w w')) ->
        p = ca /\ k = caKey
        /\ exists priv, reaches w = Some priv /\ pub = Public priv).
Proof.
  split.
  - intros caFile d w r w' t p pub k H.
    rewrite (since_app _ _ _ (generateCA_trace _ _ _ _ _ _ H)).
    unfold caEvents, reaches, certOpen.
    destruct (16 <=? length (entropy w))%nat; [|intros []].
    destruct (keygen w) as [|[priv|err] rest]; [intros []| |intros []].
    cbv zeta.
    destruct (x509_encode lib _ _ _ _) as [derBytes|];
      [destruct (x509_ParseCertificate lib derBytes);
       [destruct (openErr w caFile)|]|];
      cbn [signatures In]; intros Hin; in_cases Hin;
      injection Hin as <- <- <- <-; auto.
  - intros host certFile keyFile ca caKey d w r w' t p pub k H.
    rewrite (since_app _ _ _ (generateCert_trace _ _ _ _ _ _ _ _ _ _ H)).
    unfold leafEvents, templateEvents, keyEvents, keyOpen, certOpen, reaches.
    destruct (16 <=? length (entropy w))%nat; [|intros []].
    destruct (keygen w) as [|[priv|err] rest]; [intros []| |intros []].
    destruct (x509_encode lib _ _ _ _) as [derBytes|];
      [destruct (openErr w certFile); [|destruct (openErr w keyFile)]|];
      cbn [signatures In]; intros Hin; in_cases Hin;
      injection Hin as <- <- <- <-; eauto.
Qed.

Lemma signature_requests_witness :
  signatures (since Demo.issuing (snd Demo.dnsRun))
  = [(leafTemplate Demo.lib "example.org" validFor Demo.issuing,
      Demo.ca, Public Demo.leafKey, Demo.caKey)]
  /\ reaches Demo.issuing = Some Demo.leafKey.
Proof.
  assert (Hsig : signatures (since Demo.issuing (snd Demo.dnsRun))
                 = [(leafTemplate Demo.lib "example.org" validFor Demo.issuing,
                     Demo.ca, Public Demo.leafKey, Demo.caKey)])
    by (vm_compute; reflexivity).
  split; [exact Hsig|].
  destruct (signature_requests Demo.lib) as (_ & Hleaf).
  destruct (Hleaf "example.org" Demo.certFile Demo.keyFile Demo.ca Demo.caKey
              validFor Demo.issuing (fst Demo.dnsRun) (snd Demo.dnsRun)
              (leafTemplate Demo.lib "example.org" validFor Demo.issuing)
              Demo.ca (Public Demo.leafKey) Demo.caKey)
    as (_ & _ & priv & Hreach & Hpub);
    [apply surjective_pairing | rewrite Hsig; now left |].
  reflexivity.
Defined.

(** ** [GeneratePKI] *)

(** The requests of [GeneratePKI] up to the external client, once both
    creations have succeeded. *)
Lemma GeneratePKI_created (lib : Library) host w ca caKey w1 w2 :
  generateCA lib (caFile lib) validFor
    (madeDir (certsDir lib) (perm3 7 0 0)
       (logged (EvMkdir (certsDir lib) (perm3 7 0 0)) w))
  = (Ret (OkR (ca, caKey)), w1) ->
  generateCert lib host (hostCert lib) (hostKey lib) ca caKey validFor w1
  = (Ret None, w2) ->
  exists leafKey rest caDer leafDer,
    keygen w = OkR caKey :: OkR leafKey :: rest
    /\ (clock w1 = clock w /\ ticks w1 = S (ticks w))
    /\ x509_encode lib (caTemplate validFor w) (caTemplate validFor w)
                   (Public caKey) caKey = OkR caDer
    /\ x509_ParseCertificate lib caDer = OkR ca
    /\ x509_encode lib (leafTemplate lib host validFor w1) ca
                   (Public leafKey) caKey = OkR leafDer
    /\ execErr w2 = execErr w
    /\ trace w2
       = trace w
         ++ [EvMkdir (certsDir lib) (perm3 7 0 0);
             EvSign (caTemplate validFor w) (caTemplate validFor w)
                    (Public caKey) caKey;
             certOpen (caFile lib);
             EvWrite (caFile lib) (certPem caDer);
             EvClose (caFile lib);
             EvSign (leafTemplate lib host validFor w1) ca
                    (Public leafKey) caKey;
             certOpen (hostCert lib);
             EvWrite (hostCert lib) (certPem leafDer);
             EvClose (hostCert lib);
             keyOpen (hostKey lib);
             EvWrite (hostKey lib) (keyPem leafKey);
             EvClose (hostKey lib)].
Proof.
  intros Hca Hleaf.
  set (w0 := madeDir _ _ _) in *.
  destruct (sources_madeDir (certsDir lib) (perm3 7 0 0)
              (logged (EvMkdir (certsDir lib) (perm3 7 0 0)) w))
    as (Hc0 & Ht0 & He0 & Hk0 & _ & Hx0).
  fold w0 in Hc0, Ht0, He0, Hk0, Hx0.
  cbn [logged set_trace clock ticks entropy keygen execErr] in Hc0, Ht0, He0, Hk0, Hx0.
  assert (HcaT : caTemplate validFor w0 = caTemplate validFor w).
  { unfold caTemplate. now rewrite (templateAt_sources validFor w0 w). }
  pose proof (generateCA_trace _ _ _ _ _ _ Hca) as Htca.
  pose proof (generateCert_trace _ _ _ _ _ _ _ _ _ _ Hleaf) as Htleaf.
  destruct (generateCA_success _ _ _ _ _ _ _ Hca)
    as (rest & caDer & Hlen & Hkey & Hder & Hparse & Hopen & Hwrite & Hw1).
  destruct (generateCert_success _ _ _ _ _ _ _ _ _ Hleaf)
    as (leafKey & rest' & leafDer & Hlen' & Hkey' & Hder' & Hopen1 & Hopen2 & Hw2).
  destruct (sources_certWritten (caFile lib) caDer
              (logged (EvSign (caTemplate validFor w0) (caTemplate validFor w0)
                              (Public caKey) caKey)
                      (set_keygen rest (afterTemplate w0))))
    as (Hc1 & Ht1 & He1 & Hk1 & Hx1).
  rewrite <- Hw1 in Hc1, Ht1, He1, Hk1, Hx1.
  cbn [logged set_trace set_keygen afterTemplate set_entropy set_ticks
       clock ticks entropy keygen execErr] in Hc1, Ht1, He1, Hk1, Hx1.
  exists leafKey, rest', caDer, leafDer.
  rewrite HcaT in Hder.
  split; [rewrite <- Hk0, Hkey; f_equal; rewrite <- Hkey', Hk1; reflexivity|].
  split.
  { split; [rewrite Hc1, Hc0|rewrite Ht1, Ht0]; reflexivity. }
  split; [exact Hder|]. split; [exact Hparse|]. split; [exact Hder'|].
  split.
  { rewrite Hw2, sources_keyWritten.
    destruct (sources_certWritten (hostCert lib) leafDer
                (logged (EvSign (leafTemplate lib host validFor w1) ca
                                (Public leafKey) caKey)
                        (set_keygen rest' (afterTemplate w1))))
      as (_ & _ & _ & _ & Hx2).
    rewrite Hx2. cbn [logged set_trace set_keygen afterTemplate set_entropy
                      set_ticks execErr].
    now rewrite Hx1. }
  rewrite Htleaf, Htca. unfold w0 at 1.
  rewrite trace_madeDir, trace_logged.
  unfold caEvents, leafEvents, templateEvents, keyEvents.
  rewrite Hlen, Hkey, Hlen', Hkey'. cbv zeta.
  rewrite HcaT, Hder, Hparse, Hopen, Hder', Hopen1, Hopen2.
  rewrite <- !app_assoc. reflexivity.
Qed.

Lemma execs_app (l1 l2 : list Event) : execs (l1 ++ l2) = execs l1 ++ execs l2.
Proof.
  induction l1 as [|[] l1 IH]; cbn [execs app]; rewrite ?IH; reflexivity.
Qed.

Lemma execs_caEvents lib caFile validFor w :
  execs (caEvents lib caFile validFor w) = [].
Proof.
  unfold caEvents, certOpen.
  destruct (16 <=? length (entropy w))%nat; [|reflexivity].
  destruct (keygen w) as [|[priv|err] rest]; try reflexivity.
  cbv zeta.
  destruct (x509_encode lib _ _ _ _) as [derBytes|]; [|reflexivity].
  destruct (x509_ParseCertificate lib derBytes); [|reflexivity].
  destruct (openErr w caFile); reflexivity.
Qed.

Lemma execs_leafEvents lib host certFile keyFile ca caKey validFor w :
  execs (leafEvents lib host certFile keyFile ca caKey validFor w) = [].
Proof.
  unfold leafEvents, templateEvents, keyEvents, keyOpen, certOpen.
  destruct (16 <=? length (entropy w))%nat; [|reflexivity].
  destruct (keygen w) as [|[priv|err] rest]; try reflexivity.
  destruct (x509_encode lib _ _ _ _); [|reflexivity].
  destruct (openErr w certFile); [reflexivity|].
  destruct (openErr w keyFile); reflexivity.
Qed.

(** X15: a run of [GeneratePKI] that returns has made these requests and
    no others, in this order: the directory; the signature of the CA and
    the CA file opened, written and closed; the signature of the leaf,
    the certificate file and then the key file opened, written and
    closed; the external client to delete the secret, then to create it;
    two lines printed, the second the PEM block of the CA certificate. The
    CA has the first key generated and the leaf the second; the CA
    template carries the first reading of the clock, and the leaf
    template, built in the world [generateCA] has left, the second. *)
Theorem GeneratePKI_requests_in_order (lib : Library) (host : string)
    (w w' : World) :
  GeneratePKI lib host w = (Ret tt, w') ->
  exists caKey leafKey rest ca caDer leafDer w1,
    keygen w = OkR caKey :: OkR leafKey :: rest
    /\ generateCA lib (caFile lib) validFor
         (madeDir (certsDir lib) (perm3 7 0 0)
            (logged (EvMkdir (certsDir lib) (perm3 7 0 0)) w))
       = (Ret (OkR (ca, caKey)), w1)
    /\ x509_encode lib (caTemplate validFor w) (caTemplate validFor w)
                   (Public caKey) caKey = OkR caDer
    /\ x509_ParseCertificate lib caDer = OkR ca
    /\ x509_encode lib (leafTemplate lib host validFor w1) ca
                   (Public leafKey) caKey = OkR leafDer
    /\ since w w'
       = [EvMkdir (certsDir lib) (perm3 7 0 0);
          EvSign (caTemplate validFor w) (caTemplate validFor w)
                 (Public caKey) caKey;
          certOpen (caFile lib);
          EvWrite (caFile lib) (certPem caDer);
          EvClose (caFile lib);
          EvSign (leafTemplate lib host validFor w1) ca
                 (Public leafKey) caKey;
          certOpen (hostCert lib);
          EvWrite (hostCert lib) (certPem leafDer);
          EvClose (hostCert lib);
          keyOpen (hostKey lib);
          EvWrite (hostKey lib) (keyPem leafKey);
          EvClose (hostKey lib);
          EvExec [] kubectl deleteArgs;
          EvExec [] kubectl (createArgs lib);
          EvPrintln ("Ephemeral CA below and saved to " +:+ caFile lib
                     +:+ String (ascii_of_byte newline) EmptyString);
          EvPrintln (string_of_bytes (certPem (Raw ca)))]
    /\ NotBefore (caTemplate validFor w) = clock w (ticks w)
    /\ NotBefore (leafTemplate lib host validFor w1) = clock w (S (ticks w)).
Proof.
  intros H. pose proof (GeneratePKI_stages _ _ _ _ _ H) as Hst.
  destruct Hst as (r1 & w1 & Hca & [[_ Hne]|Hst]); [now destruct Hne|].
  destruct Hst as (ca & caKey & r2 & w2 & -> & Hleaf & [[_ Hne]|[-> Hpush]]);
    [now destruct Hne|].
  destruct (GeneratePKI_created _ _ _ _ _ _ _ Hca Hleaf)
    as (leafKey & rest & caDer & leafDer & Hkeys & (Hclock & Hticks) & Hder
        & Hparse & Hder' & Hexec & Htrace).
  exists caKey, leafKey, rest, ca, caDer, leafDer, w1.
  split; [exact Hkeys|]. split; [exact Hca|]. split; [exact Hder|].
  split; [exact Hparse|]. split; [exact Hder'|]. split.
  - apply since_app. revert Hpush. unfold pushed. cbv zeta.
    destruct (execErr w2 kubectl deleteArgs); [discriminate|].
    destruct (execErr w2 kubectl (createArgs lib)); [discriminate|].
    intros [= <-]. rewrite !trace_logged, Htrace, <- !app_assoc. reflexivity.
  - split; [reflexivity|].
    rewrite <- Hclock, <- Hticks.
    unfold leafTemplate. destruct (net_ParseIP lib host); reflexivity.
Qed.

Lemma GeneratePKI_requests_in_order_witness :
  exists caDer leafDer ca,
    execs (since Demo.world (snd Demo.pkiRun))
    = [(kubectl, deleteArgs); (kubectl, createArgs Demo.lib)]
    /\ writes (since Demo.world (snd Demo.pkiRun))
       = [(caFile Demo.lib, certPem caDer);
          (hostCert Demo.lib, certPem leafDer);
          (hostKey Demo.lib, keyPem Demo.leafKey)]
    /\ x509_ParseCertificate Demo.lib caDer = OkR ca.
Proof.
  destruct (GeneratePKI_requests_in_order Demo.lib "example.org" Demo.world
              (snd Demo.pkiRun))
    as (caKey & leafKey & rest & ca & caDer & leafDer & w1 & Hkeys & _ & _
        & Hparse & _ & Hsince & _).
  { assert (Hret : fst Demo.pkiRun = Ret tt) by (vm_compute; reflexivity).
    rewrite <- Hret. apply surjective_pairing. }
  injection Hkeys as _ <- _.
  exists caDer, leafDer, ca. rewrite Hsince.
  split; [reflexivity|]. split; [reflexivity|exact Hparse].
Defined.

(** X16: [GeneratePKI] runs the external client only once both creations
    have succeeded: in every run, whatever its end, either no command was
    run, or the three files were opened and handed their blocks before,
    and the commands run are the deletion of the secret, or the deletion
    and then the creation. A run that returns has run both. *)
Theorem GeneratePKI_runs_kubectl_after_the_files (lib : Library) (host : string)
    (w : World) (r : outcome unit) (w' : World) :
  GeneratePKI lib host w = (r, w') ->
  (execs (since w w') = []
   \/ (fst <$> writes (since w w') = [caFile lib; hostCert lib; hostKey lib]
       /\ (execs (since w w') = [(kubectl, deleteArgs)]
           \/ execs (since w w')
              = [(kubectl, deleteArgs); (kubectl, createArgs lib)])))
  /\ (r = Ret tt ->
      execs (since w w') = [(kubectl, deleteArgs); (kubectl, createArgs lib)]).
Proof.
  intros H. pose proof (GeneratePKI_stages _ _ _ _ _ H) as Hst.
  destruct Hst as (r1 & w1 & Hca & Hst).
  set (w0 := madeDir _ _ _) in *.
  assert (Hw0 : trace w0 = trace w ++ [EvMkdir (certsDir lib) (perm3 7 0 0)]).
  { unfold w0. now rewrite trace_madeDir, trace_logged. }
  pose proof (generateCA_trace _ _ _ _ _ _ Hca) as Htca.
  destruct Hst as [[-> Hne]|(ca & caKey & r2 & w2 & -> & Hleaf & Hst)].
  { split; [left|intros ->; now destruct Hne].
    rewrite (since_app _ _ (EvMkdir (certsDir lib) (perm3 7 0 0)
                            :: caEvents lib (caFile lib) validFor w0))
      by (rewrite Htca, Hw0, <- app_assoc; reflexivity).
    cbn [execs]. apply execs_caEvents. }
  pose proof (generateCert_trace _ _ _ _ _ _ _ _ _ _ Hleaf) as Htleaf.
  destruct Hst as [[-> Hne]|[-> Hpush]].
  { split; [left|intros ->; now destruct Hne].
    rewrite (since_app _ _ (EvMkdir (certsDir lib) (perm3 7 0 0)
                            :: caEvents lib (caFile lib) validFor w0
                            ++ leafEvents lib host (hostCert lib) (hostKey lib)
                                 ca caKey validFor w1))
      by (rewrite Htleaf, Htca, Hw0, <- !app_assoc; reflexivity).
    cbn [execs]. rewrite execs_app, execs_caEvents, execs_leafEvents.
    reflexivity. }
  destruct (GeneratePKI_created _ _ _ _ _ _ _ Hca Hleaf)
    as (leafKey & rest & caDer & leafDer & _ & _ & _ & _ & _ & _ & Htrace).
  revert Hpush. unfold pushed. cbv zeta.
  destruct (execErr w2 kubectl deleteArgs).
  { intros [= <- <-]. split; [right|discriminate].
    erewrite since_app
      by (rewrite !trace_logged, Htrace, <- !app_assoc; reflexivity).
    split; [reflexivity|left; reflexivity]. }
  destruct (execErr w2 kubectl (createArgs lib)).
  { intros [= <- <-]. split; [right|discriminate].
    erewrite since_app
      by (rewrite !trace_logged, Htrace, <- !app_assoc; reflexivity).
    split; [reflexivity|right; reflexivity]. }
  intros [= <- <-].
  erewrite since_app
      by (rewrite !trace_logged, Htrace, <- !app_assoc; reflexivity).
  split; [right; split; [reflexivity|right; reflexivity]|reflexivity].
Qed.

Lemma GeneratePKI_runs_kubectl_after_the_files_witness :
  execs (since Demo.world (snd Demo.pkiRun))
  = [(kubectl, deleteArgs); (kubectl, createArgs Demo.lib)].
Proof.
  destruct (GeneratePKI_runs_kubectl_after_the_files Demo.lib "example.org"
              Demo.world (fst Demo.pkiRun) (snd Demo.pkiRun)) as (_ & Hret);
    [apply surjective_pairing|].
  apply Hret. vm_compute. reflexivity.
Defined.

Lemma generateCert_error_origin_witness :
  keygen Demo.readOnly = [] /\ "permission denied" = "unexpected EOF"
  \/ (exists rest, keygen Demo.readOnly = ErrR "permission denied" :: rest)
  \/ (exists priv rest,
        keygen Demo.readOnly = OkR priv :: rest
        /\ (x509_encode Demo.lib
              (leafTemplate Demo.lib "example.org" validFor Demo.readOnly)
              Demo.ca (Public priv) Demo.caKey = ErrR "permission denied"
            \/ openErr Demo.readOnly Demo.certFile = Some "permission denied"
            \/ openErr Demo.readOnly Demo.keyFile = Some "permission denied")).
Proof.
  apply (generateCert_error_origin Demo.lib "example.org" Demo.certFile
           Demo.keyFile Demo.ca Demo.caKey validFor Demo.readOnly
           "permission denied"
           (snd (generateCert Demo.lib "example.org" Demo.certFile
                   Demo.keyFile Demo.ca Demo.caKey validFor Demo.readOnly))).
  assert (Hret : fst (generateCert Demo.lib "example.org" Demo.certFile
                        Demo.keyFile Demo.ca Demo.caKey validFor Demo.readOnly)
                 = Ret (Some "permission denied"))
    by (vm_compute; reflexivity).
  pose proof (surjective_pairing
                (generateCert Demo.lib "example.org" Demo.certFile
                   Demo.keyFile Demo.ca Demo.caKey validFor Demo.readOnly))
    as Hrun.
  rewrite Hret in Hrun. exact Hrun.
Defined.

(** X17: when the CA is signed and parsed but its file cannot be opened,
    [GeneratePKI] exits with the error of the opening: it has asked for
    the directory, for the signature of the CA and for the file, and for
    nothing else (no leaf, no command), and every file is as it was. *)
Theorem GeneratePKI_exits_when_CA_file_cannot_be_opened (lib : Library)
    (host : string) (w : World) (caKey : PrivateKey) (caDer : list Z)
    (ca : Certificate) (err : error) :
  reaches w = Some caKey ->
  x509_encode lib (caTemplate validFor w) (caTemplate validFor w)
              (Public caKey) caKey = OkR caDer ->
  x509_ParseCertificate lib caDer = OkR ca ->
  openErr w (caFile lib) = Some err ->
  exists w',
    GeneratePKI lib host w = (Fatal err, w')
    /\ files w' = files w
    /\ since w w'
       = [EvMkdir (certsDir lib) (perm3 7 0 0);
          EvSign (caTemplate validFor w) (caTemplate validFor w)
                 (Public caKey) caKey;
          certOpen (caFile lib)].
Proof.
  unfold reaches. intros Hreach Hder Hparse Hopen.
  rewrite GeneratePKI_run, generateCA_run.
  set (w0 := madeDir _ _ _).
  destruct (sources_madeDir (certsDir lib) (perm3 7 0 0)
              (logged (EvMkdir (certsDir lib) (perm3 7 0 0)) w))
    as (Hc0 & Ht0 & He0 & Hk0 & Ho0 & _).
  fold w0 in Hc0, Ht0, He0, Hk0, Ho0.
  cbn [logged set_trace clock ticks entropy keygen openErr] in Hc0, Ht0, He0, Hk0, Ho0.
  assert (HcaT : caTemplate validFor w0 = caTemplate validFor w).
  { unfold caTemplate. now rewrite (templateAt_sources validFor w0 w). }
  rewrite He0, Hk0, Ho0.
  destruct (16 <=? length (entropy w))%nat; [|discriminate].
  destruct (keygen w) as [|[priv|err'] rest]; try discriminate.
  injection Hreach as ->. cbv zeta.
  rewrite HcaT, Hder, Hparse, Hopen.
  eexists. split; [reflexivity|]. split.
  - cbn [logged set_trace set_keygen afterTemplate set_entropy set_ticks files].
    unfold w0. now rewrite files_madeDir.
  - apply since_app. rewrite !trace_logged.
    cbn [set_keygen afterTemplate set_entropy set_ticks trace].
    unfold w0. rewrite trace_madeDir, trace_logged, <- !app_assoc. reflexivity.
Qed.

Lemma GeneratePKI_exits_when_CA_file_cannot_be_opened_witness :
  exists w',
    GeneratePKI Demo.lib "example.org" Demo.noCAFile
    = (Fatal "permission denied", w')
    /\ files w' = files Demo.noCAFile
    /\ since Demo.noCAFile w'
       = [EvMkdir (certsDir Demo.lib) (perm3 7 0 0);
          EvSign (caTemplate validFor Demo.noCAFile)
                 (caTemplate validFor Demo.noCAFile)
                 (Public Demo.caKey) Demo.caKey;
          certOpen (caFile Demo.lib)].
Proof.
  eapply (GeneratePKI_exits_when_CA_file_cannot_be_opened Demo.lib
            "example.org" Demo.noCAFile Demo.caKey);
    vm_compute; reflexivity.
Defined.
